(** * Hub: the client of the Hub REST API (src/js/background/controllers/hub.js)

    A shallow embedding of the [Hub] class and of the part of the JavaScript
    platform it runs on, followed by the properties of its relation
    resolver, transport, graph traversals and login.

    Layout:
    - [Js]: JSON-shaped JavaScript values, exceptions, property access,
      truthiness, strict equality, string conversion;
    - [Url]: the platform's [URL] class on hierarchical URLs;
    - [Effects]: promises, the log of requests that leave the process, and
      the monad in which method bodies are written;
    - [Hub]: the methods of the class, one definition per method;
    - [Doubles] and the sample servers: collaborators for concrete runs;
    - the vocabulary of the properties, then the properties themselves. *)

From Stdlib Require Import String Ascii List ZArith NArith Bool Lia DecimalString.
Import ListNotations.
Open Scope string_scope.

(** * JavaScript values and exceptions *)

Module Js.

(** Primitive payload of a wrapper object ([Object(5)], [Object("x")]). *)
Inductive primitive : Type :=
| PBool (b : bool)
| PNum (n : Z)
| PStr (s : string).

(** Values the program handles: what [JSON.parse] produces, [undefined],
    and the objects the program itself builds.  Numbers are the integers
    (JSON numbers that print in plain decimal).  Arrays and wrapper objects
    carry the named properties that [Object.assign] or an assignment may have
    put on them; a decoded array has none.  Property lists keep insertion
    order and hold each key once. *)
#[warnings="-register-all"]
Inductive value : Type :=
| VUndef
| VNull
| VBool (b : bool)
| VNum (n : Z)
| VStr (s : string)
| VArr (elems : list value) (own : list (string * value))
| VObj (own : list (string * value))
| VBox (p : primitive) (own : list (string * value)).

Inductive type_error : Type :=
| CannotRead (prop : string)           (* property read or destructuring of undefined/null *)
| NotAFunction (prop : string)         (* call of a property that is no function *)
| CannotCreateProperty (prop : string) (* strict-mode assignment on a primitive *)
| CannotConvert                        (* no primitive / no object conversion *)
| InvalidURL.                          (* new URL(s) on an unparsable s *)

Inductive error : Type :=
| Error (message : value)      (* new Error(message) *)
| TypeError (why : type_error) (* raised by the engine or the platform *)
| NetworkError                 (* the platform's fetch rejected *)
| Denied (reason : string).    (* Permissions.requestUrl rejected *)

(** Outcome of a synchronous evaluation. *)
Inductive completion (A : Type) : Type :=
| Throw (e : error)
| Normal (a : A).
Arguments Throw {A} e.
Arguments Normal {A} a.

Definition cbind {A B} (c : completion A) (k : A -> completion B) : completion B :=
  match c with
  | Throw e => Throw e
  | Normal a => k a
  end.

Fixpoint lookup {V} (k : string) (own : list (string * V)) : option V :=
  match own with
  | [] => None
  | (k', v) :: rest => if (k' =? k)%string then Some v else lookup k rest
  end.

Definition has_own {V} (k : string) (own : list (string * V)) : bool :=
  match lookup k own with Some _ => true | None => false end.

Definition own_get (own : list (string * value)) (k : string) : value :=
  match lookup k own with Some v => v | None => VUndef end.

(** [o[k] = v] on a property list: an existing key keeps its position. *)
Fixpoint own_set {V} (k : string) (v : V) (own : list (string * V)) : list (string * V) :=
  match own with
  | [] => [(k, v)]
  | (k', v') :: rest =>
      if (k' =? k)%string then (k, v) :: rest else (k', v') :: own_set k v rest
  end.

(** [o.p], for a name [p] that no prototype defines (every name the source
    reads is one: items, errorMessage, source, vulnerabilityName,
    componentVersion, version, projectName, projectVersionUrl). *)
Definition get_prop (o : value) (p : string) : completion value :=
  match o with
  | VUndef | VNull => Throw (TypeError (CannotRead p))
  | VBool _ | VNum _ | VStr _ => Normal VUndef
  | VArr _ own | VObj own | VBox _ own => Normal (own_get own p)
  end.

(** A parameter declared [{ ... } = {}]: only [undefined] takes the default. *)
Definition default_empty (v : value) : value :=
  match v with VUndef => VObj [] | _ => v end.

(** [o.p = v] in strict code (an ES module, a class body). *)
Definition set_prop (o : value) (p : string) (v : value) : completion value :=
  match o with
  | VUndef | VNull => Throw (TypeError (CannotRead p))
  | VBool _ | VNum _ | VStr _ => Throw (TypeError (CannotCreateProperty p))
  | VArr elems own => Normal (VArr elems (own_set p v own))
  | VObj own => Normal (VObj (own_set p v own))
  | VBox q own => Normal (VBox q (own_set p v own))
  end.

Definition assign_all (src own : list (string * value)) : list (string * value) :=
  fold_left (fun acc kv => own_set (fst kv) (snd kv) acc) src own.

(** [Object.assign(target, src)] for a literal [src]: the target itself,
    updated, or the wrapper object of a primitive target. *)
Definition object_assign (target : value) (src : list (string * value)) : completion value :=
  match target with
  | VUndef | VNull => Throw (TypeError CannotConvert)
  | VBool b => Normal (VBox (PBool b) (assign_all src []))
  | VNum n => Normal (VBox (PNum n) (assign_all src []))
  | VStr s => Normal (VBox (PStr s) (assign_all src []))
  | VArr elems own => Normal (VArr elems (assign_all src own))
  | VObj own => Normal (VObj (assign_all src own))
  | VBox q own => Normal (VBox q (assign_all src own))
  end.

(** ToBoolean. *)
Definition truthy (v : value) : bool :=
  match v with
  | VUndef | VNull => false
  | VBool b => b
  | VNum n => negb (n =? 0)%Z
  | VStr s => negb (s =? "")%string
  | VArr _ _ | VObj _ | VBox _ _ => true
  end.

(** [a === b].  Two objects are equal only when they are the same
    allocation; the source compares a field of a freshly decoded response
    with a string literal or with a field of another response, never an
    object with itself, so objects compare unequal. *)
Definition strict_eq (a b : value) : bool :=
  match a, b with
  | VUndef, VUndef => true
  | VNull, VNull => true
  | VBool x, VBool y => Bool.eqb x y
  | VNum x, VNum y => (x =? y)%Z
  | VStr x, VStr y => (x =? y)%string
  | _, _ => false
  end.

Definition primitive_to_string (p : primitive) : string :=
  match p with
  | PBool true => "true"
  | PBool false => "false"
  | PNum n => NilZero.string_of_int (Z.to_int n)
  | PStr s => s
  end.

(** ToString, as a template literal applies it.  No value of the model is
    callable, so an own [toString], [valueOf] or [join] property only
    shadows the inherited method. *)
Fixpoint to_string (v : value) : completion string :=
  let element (x : value) : completion string :=
    match x with
    | VUndef | VNull => Normal ""
    | _ => to_string x
    end in
  let fix join (l : list value) : completion string :=
    match l with
    | [] => Normal ""
    | [x] => element x
    | x :: rest =>
        cbind (element x) (fun s => cbind (join rest) (fun t => Normal (s ++ "," ++ t)))
    end in
  match v with
  | VUndef => Normal "undefined"
  | VNull => Normal "null"
  | VBool b => Normal (primitive_to_string (PBool b))
  | VNum n => Normal (primitive_to_string (PNum n))
  | VStr s => Normal s
  | VObj own =>
      if has_own "toString" own then Throw (TypeError CannotConvert)
      else Normal "[object Object]"
  | VArr elems own =>
      if has_own "toString" own then Throw (TypeError CannotConvert)
      else if has_own "join" own then Normal "[object Array]"
      else join elems
  | VBox p own =>
      if has_own "toString" own && has_own "valueOf" own
      then Throw (TypeError CannotConvert)
      else Normal (primitive_to_string p)
  end.

(** The elements an array method ([map], [filter]) iterates over, or the
    TypeError of calling it on something else. *)
Definition array_elems (method : string) (v : value) : completion (list value) :=
  match v with
  | VUndef | VNull => Throw (TypeError (CannotRead method))
  | VArr elems own =>
      if has_own method own then Throw (TypeError (NotAFunction method))
      else Normal elems
  | _ => Throw (TypeError (NotAFunction method))
  end.

(** [xs.map(f)] and [xs.filter(f)] with a callback that may throw: the
    first exception ends the iteration. *)
Fixpoint map_c {A B} (f : A -> completion B) (xs : list A) : completion (list B) :=
  match xs with
  | [] => Normal []
  | x :: rest => cbind (f x) (fun y => cbind (map_c f rest) (fun ys => Normal (y :: ys)))
  end.

Fixpoint filter_c {A} (f : A -> completion bool) (xs : list A) : completion (list A) :=
  match xs with
  | [] => Normal []
  | x :: rest =>
      cbind (f x) (fun keep =>
      cbind (filter_c f rest) (fun ys => Normal (if keep then x :: ys else ys)))
  end.

End Js.
Export Js.

(** * The platform's URL class *)

(** [new URL(s)], the [pathname] setter, [searchParams.append] and
    [toString()], on the URLs the Hub serves: [scheme://host[:port]]
    followed by an optional path, query and fragment.  The [pathname]
    setter treats backslashes and dot segments as the platform does.
    Outside the model: credentials in the authority, removal of a default
    port, dot segments and backslashes in the argument of [new URL], and
    re-serialisation of a query that was not produced by [URLSearchParams]
    in the first place.  Strings are byte strings (UTF-8), so
    percent-encoding works byte by byte. *)
Module Url.

Record t : Type := mk {
  scheme : string;
  authority : string;
  pathname : string;
  search : option string;
  hash : option string
}.

Fixpoint span (p : ascii -> bool) (s : string) : string * string :=
  match s with
  | EmptyString => (EmptyString, EmptyString)
  | String c rest =>
      if p c then let (a, b) := span p rest in (String c a, b)
      else (EmptyString, s)
  end.

Fixpoint strip_prefix (pre s : string) : option string :=
  match pre, s with
  | EmptyString, _ => Some s
  | String a pre', String b s' => if Ascii.eqb a b then strip_prefix pre' s' else None
  | String _ _, EmptyString => None
  end.

Definition between (lo hi : N) (c : ascii) : bool :=
  ((lo <=? N_of_ascii c) && (N_of_ascii c <=? hi))%N.

Definition is_upper : ascii -> bool := between 65 90.
Definition is_lower : ascii -> bool := between 97 122.
Definition is_digit : ascii -> bool := between 48 57.
Definition is_alpha (c : ascii) : bool := is_upper c || is_lower c.
Definition is_alnum (c : ascii) : bool := is_alpha c || is_digit c.

Definition one_of (set : string) (c : ascii) : bool :=
  existsb (Ascii.eqb c) (list_ascii_of_string set).

Definition lower_ascii (c : ascii) : ascii :=
  if is_upper c then ascii_of_N (N_of_ascii c + 32) else c.

Fixpoint lower (s : string) : string :=
  match s with
  | EmptyString => EmptyString
  | String c rest => String (lower_ascii c) (lower rest)
  end.

Definition is_scheme_char (c : ascii) : bool := is_alnum c || one_of "+-." c.

Definition parse (s : string) : option t :=
  let (sch, after_scheme) := span is_scheme_char s in
  match sch with
  | EmptyString => None
  | String c _ =>
      if is_alpha c then
        match strip_prefix "://" after_scheme with
        | None => None
        | Some r =>
            let (auth, after_auth) := span (fun c => negb (one_of "/?#" c)) r in
            if (auth =? "")%string then None else
            let (path, after_path) := span (fun c => negb (one_of "?#" c)) after_auth in
            let (query, after_query) :=
              match after_path with
              | String "?" q => let (a, b) := span (fun c => negb (one_of "#" c)) q in (Some a, b)
              | _ => (None, after_path)
              end in
            let fragment :=
              match after_query with
              | String "#" f => Some f
              | _ => None
              end in
            Some (mk (lower sch) (lower auth)
                     (if (path =? "")%string then "/" else path) query fragment)
        end
      else None
  end.

(** [new URL(s)] *)
Definition new (s : string) : completion t :=
  match parse s with
  | Some u => Normal u
  | None => Throw (TypeError InvalidURL)
  end.

Definition hex_digit (n : N) : ascii :=
  if (n <? 10)%N then ascii_of_N (48 + n) else ascii_of_N (55 + n).

Definition percent (c : ascii) : string :=
  String "%" (String (hex_digit (N_of_ascii c / 16))
             (String (hex_digit (N_of_ascii c mod 16)) EmptyString)).

Fixpoint encode (byte : ascii -> string) (s : string) : string :=
  match s with
  | EmptyString => EmptyString
  | String c rest => byte c ++ encode byte rest
  end.

(** The path percent-encode set: controls, space, non-ASCII bytes, the
    double quote (code 34) and the characters that would end the path or
    are unsafe in it. *)
Definition path_byte (c : ascii) : string :=
  if negb (between 33 126 c) || Ascii.eqb c (ascii_of_N 34) || one_of "#<>?`{}" c
  then percent c
  else String c EmptyString.

(** The application/x-www-form-urlencoded byte serialiser. *)
Definition form_byte (c : ascii) : string :=
  if Ascii.eqb c " " then "+"
  else if is_alnum c || one_of "*-._" c then String c EmptyString
  else percent c.

Definition form_encode : string -> string := encode form_byte.

Definition backslash : ascii := ascii_of_N 92.

(** In the path of an http(s) URL a backslash separates segments as a
    slash does. *)
Definition is_separator (c : ascii) : bool :=
  Ascii.eqb c "/" || Ascii.eqb c backslash.

(** Tab, line feed and carriage return, which the parser drops from its
    input. *)
Definition is_tab_or_newline (c : ascii) : bool :=
  ((N_of_ascii c =? 9) || (N_of_ascii c =? 10) || (N_of_ascii c =? 13))%N.

Fixpoint drop (p : ascii -> bool) (s : string) : string :=
  match s with
  | EmptyString => EmptyString
  | String c rest => if p c then drop p rest else String c (drop p rest)
  end.

(** The segments of a path, cut at the separators: the first one and
    those after it. *)
Fixpoint segments (s : string) : string * list string :=
  match s with
  | EmptyString => (EmptyString, [])
  | String c rest =>
      let (seg, more) := segments rest in
      if is_separator c then (EmptyString, seg :: more) else (String c seg, more)
  end.

Definition is_single_dot (buffer : string) : bool :=
  let b := lower buffer in (b =? ".")%string || (b =? "%2e")%string.

Definition is_double_dot (buffer : string) : bool :=
  let b := lower buffer in
  (b =? "..")%string || (b =? ".%2e")%string || (b =? "%2e.")%string
  || (b =? "%2e%2e")%string.

(** The path state of the parser, segment by segment; [path] is the path
    built so far, last segment first.  A double-dot segment removes the
    last segment, a single-dot segment adds none, and either leaves an
    empty last segment when the input ends with it. *)
Fixpoint walk (path : list string) (segs : list string) : list string :=
  match segs with
  | [] => path
  | seg :: rest =>
      let buffer := encode path_byte seg in
      let at_end := match rest with [] => true | _ :: _ => false end in
      if is_double_dot buffer
      then walk (if at_end then EmptyString :: tl path else tl path) rest
      else if is_single_dot buffer
      then walk (if at_end then EmptyString :: path else path) rest
      else walk (buffer :: path) rest
  end.

Fixpoint serialize_path (path : list string) : string :=
  match path with
  | [] => EmptyString
  | seg :: rest => String "/" (seg ++ serialize_path rest)
  end.

(** The path the parser makes of [p] from the path start state, where
    one leading separator is skipped and [?] and [#] are percent-encoded
    like any other byte of the set. *)
Definition parse_path (p : string) : string :=
  let input := drop is_tab_or_newline p in
  let input := match input with
               | String c rest => if is_separator c then rest else input
               | EmptyString => input
               end in
  let (seg, more) := segments input in
  serialize_path (rev (walk [] (seg :: more))).

(** [url.pathname = p]: the path of [u] is emptied and [p] is parsed in
    its place. *)
Definition set_pathname (u : t) (p : string) : t :=
  mk (scheme u) (authority u) (parse_path p) (search u) (hash u).

(** [url.searchParams.append(k, v)] *)
Definition append (u : t) (k v : string) : t :=
  let pair := form_encode k ++ "=" ++ form_encode v in
  let q := match search u with
           | None => pair
           | Some old => if (old =? "")%string then pair else old ++ "&" ++ pair
           end in
  mk (scheme u) (authority u) (pathname u) (Some q) (hash u).

(** [url.toString()] *)
Definition href (u : t) : string :=
  scheme u ++ "://" ++ authority u ++ pathname u
  ++ match search u with Some q => "?" ++ q | None => "" end
  ++ match hash u with Some f => "#" ++ f | None => "" end.

End Url.

(** * Promises, requests and method bodies *)

Module Effects.

(** The option object handed to the platform's [fetch]; a missing key is
    [None]. *)
Record options : Type := mkOptions {
  method : option string;
  headers : option (list (string * string));
  body : option string;
  credentials : option string
}.

Definition no_options : options := mkOptions None None None None.

Definition or_else {A} (over default : option A) : option A :=
  match over with Some _ => over | None => default end.

(** [Object.assign(defaults, overrides)] on option objects. *)
Definition merge (defaults overrides : options) : options :=
  mkOptions (or_else (method overrides) (method defaults))
            (or_else (headers overrides) (headers defaults))
            (or_else (body overrides) (body defaults))
            (or_else (credentials overrides) (credentials defaults)).

(** What the platform's [fetch] resolves to: the [ok] flag and the result
    of [response.json()], [None] when decoding rejects. *)
Record response : Type := mkResponse {
  ok : bool;
  json : option value
}.

(** What leaves the process, in the order it is issued. *)
Inductive event : Type :=
| Fetched (url : string) (opts : options)   (* a call of the platform's fetch *)
| PermissionAsked (origin : string).        (* a call of Permissions.requestUrl *)

(** A promise, once settled.  A request that never settles is outside the
    model. *)
Inductive settled (A : Type) : Type :=
| Rejected (e : error)
| Fulfilled (a : A).
Arguments Rejected {A} e.
Arguments Fulfilled {A} a.

(** A piece of a method body: the events it issues and how it completes.
    An exception is a [Throw]; inside an [async] body it becomes the
    rejection of the method's promise, in a plain method it reaches the
    caller before any promise exists. *)
Definition proc (A : Type) : Type := (list event * completion A)%type.

Definition ret {A} (a : A) : proc A := ([], Normal a).
Definition throw {A} (e : error) : proc A := ([], Throw e).
Definition lift {A} (c : completion A) : proc A := ([], c).

Definition bind {A B} (m : proc A) (k : A -> proc B) : proc B :=
  match m with
  | (ev, Throw e) => (ev, Throw e)
  | (ev, Normal a) => let (ev', c) := k a in ((ev ++ ev')%list, c)
  end.

Declare Scope proc_scope.
Delimit Scope proc_scope with proc.
Notation "x <- m ;; k" := (bind m (fun x => k))
  (at level 61, m at next level, right associativity) : proc_scope.
Open Scope proc_scope.

(** [await p] *)
Definition await {A} (p : settled A) : proc A :=
  match p with
  | Rejected e => throw e
  | Fulfilled a => ret a
  end.

(** The body of an [async] method: the call always returns a promise. *)
Definition async {A} (body : proc A) : proc (settled A) :=
  match body with
  | (ev, Throw e) => (ev, Normal (Rejected e))
  | (ev, Normal a) => (ev, Normal (Fulfilled a))
  end.

(** [p.catch(() => null)] *)
Definition catch_null (p : settled value) : settled value :=
  match p with
  | Rejected _ => Fulfilled VNull
  | Fulfilled v => Fulfilled v
  end.

(** [p.then(f)] for a synchronous [f]. *)
Definition then_ {A B} (p : settled A) (f : A -> completion B) : settled B :=
  match p with
  | Rejected e => Rejected e
  | Fulfilled a =>
      match f a with
      | Throw e => Rejected e
      | Normal b => Fulfilled b
      end
  end.

(** [xs.map(f)] for a callback with effects: callbacks run in index order,
    each to its first suspension, which in this class is after its only
    request has been issued. *)
Fixpoint map_p {A B} (f : A -> proc B) (xs : list A) : proc (list B) :=
  match xs with
  | [] => ret []
  | x :: rest => y <- f x ;; ys <- map_p f rest ;; ret (y :: ys)
  end.

(** [Promise.all(ps)]: the values in the order of [ps], or a rejection.
    When several promises reject, which reason wins depends on timing; the
    model takes the first in index order. *)
Fixpoint promise_all {A} (ps : list (settled A)) : settled (list A) :=
  match ps with
  | [] => Fulfilled []
  | Rejected e :: _ => Rejected e
  | Fulfilled a :: rest =>
      match promise_all rest with
      | Rejected e => Rejected e
      | Fulfilled l => Fulfilled (a :: l)
      end
  end.

(** [Array.prototype.concat.apply([], args)]: array arguments are spread,
    any other argument is appended as it is. *)
Definition concat_apply (args : list value) : value :=
  VArr (flat_map (fun a => match a with VArr elems _ => elems | _ => [a] end) args) [].

End Effects.
Export Effects.

(** * The collaborators of the class *)

(** [hubOrigin]: [store.getState('hubOrigin')], [None] when nothing is
    stored.  [permission]: [Permissions.requestUrl], [None] when granted,
    the rejection otherwise.  [network]: the platform's [fetch], [None]
    when it rejects; the server answers a request by its URL and options.
    [linksFor]: the lookup of a relation name in the link collection of a
    resource, [None] when the resource has no such relation, the URLs of
    the relation otherwise. *)
Record environment : Type := mkEnvironment {
  hubOrigin : option string;
  permission : string -> option error;
  network : string -> options -> option response;
  linksFor : value -> string -> option (list string)
}.

(** * The Hub class *)

Module Hub.

Section Methods.

Variable env : environment.

(** Modelled from the spec: models/hateoas-model.js is not among the
    sources.  The spec gives a resource a link collection keyed by relation
    name, each entry holding zero or more URLs of which the first is
    authoritative, and has the lookup of an absent name answer "absent",
    distinct from an empty list.  [getFirstLink] hands the first URL of the
    entry to the caller, [null] when the relation is absent and [undefined]
    when its entry is empty. *)
Definition getFirstLink (model : value) (relationship : string) : value :=
  match linksFor env model relationship with
  | None => VNull
  | Some [] => VUndef
  | Some (first :: _) => VStr first
  end.

(** [store.getState('hubOrigin') || ''] *)
Definition getOrigin : string :=
  match hubOrigin env with
  | Some origin => if (origin =? "")%string then "" else origin
  | None => ""
  end.

(** The receiver of a String method call ([baseUrl.startsWith]). *)
Definition string_receiver (method : string) (v : value) : completion string :=
  match v with
  | VStr s => Normal s
  | VBox (PStr s) own =>
      if has_own method own then Throw (TypeError (NotAFunction method)) else Normal s
  | VUndef | VNull => Throw (TypeError (CannotRead method))
  | _ => Throw (TypeError (NotAFunction method))
  end.

Definition startsWith_slash (s : string) : bool :=
  match s with String "/" _ => true | _ => false end.

(** [getRequestUrl(baseUrl, queryMap = {})].  [queryMap] lists the entries
    in the order of [Object.keys]; a value is given as the string
    [searchParams.append] turns it into. *)
Definition getRequestUrl (baseUrl : value) (queryMap : list (string * string))
  : completion Url.t :=
  let origin := getOrigin in
  cbind (string_receiver "startsWith" baseUrl) (fun base =>
  cbind (if startsWith_slash base
         then cbind (Url.new origin) (fun url => Normal (Url.set_pathname url base))
         else Url.new base) (fun url =>
  Normal (fold_left (fun u kv => Url.append u (fst kv) (snd kv)) queryMap url))).

(** The platform's [fetch(url, opts)]. *)
Definition platform_fetch (url : Url.t) (opts : options) : proc (settled response) :=
  ([Fetched (Url.href url) opts],
   Normal (match network env (Url.href url) opts with
           | Some r => Fulfilled r
           | None => Rejected NetworkError
           end)).

(** [async fetch(url, _opts)].  DEBUG_AJAX is a flag fixed when the
    extension is built; the console output it switches on does not touch the
    control flow and is left out. *)
Definition fetch (url : Url.t) (_opts : options) : proc (settled value) :=
  async (
    let opts := merge (mkOptions None None None (Some "include")) _opts in
    p <- platform_fetch url opts ;;
    response <- await p ;;
    (* response.json().catch(() => null) *)
    let body := match json response with Some v => v | None => VNull end in
    if negb (ok response) then
      message <- lift (get_prop body "errorMessage") ;;
      throw (Error message)
    else ret body).

(** [get(baseUrl, { queryMap, fetchOpts } = {})] *)
Definition get (baseUrl : value) (queryMap : list (string * string)) (fetchOpts : options)
  : proc (settled value) :=
  url <- lift (getRequestUrl baseUrl queryMap) ;;
  let opts := merge (mkOptions (Some "GET") None None None) fetchOpts in
  fetch url opts.

(** [post(baseUrl, { queryMap, fetchOpts } = {})] *)
Definition post (baseUrl : value) (queryMap : list (string * string)) (fetchOpts : options)
  : proc (settled value) :=
  url <- lift (getRequestUrl baseUrl queryMap) ;;
  let opts := merge (mkOptions (Some "POST") None None None) fetchOpts in
  fetch url opts.

(** [Permissions.requestUrl(origin)] *)
Definition requestUrl (origin : string) : proc (settled unit) :=
  ([PermissionAsked origin],
   Normal (match permission env origin with
           | None => Fulfilled tt
           | Some e => Rejected e
           end)).

(** The body of the login form, the template literal of [login]. *)
Definition login_body (username password : string) : string :=
  "j_username=" ++ username ++ "&j_password=" ++ password.

Definition login_options (username password : string) : options :=
  mkOptions None
            (Some [("Content-type", "application/x-www-form-urlencoded; charset=UTF-8")])
            (Some (login_body username password))
            None.

(** [async login({ username, password })] *)
Definition login (username password : string) : proc (settled value) :=
  async (
    let origin := getOrigin in
    if (origin =? "")%string then throw (Error (VStr "No Hub origin saved"))
    else
      granted <- requestUrl origin ;;
      _ <- await granted ;;
      p <- post (VStr "/j_spring_security_check") [] (login_options username password) ;;
      await p).

(** [logout()] *)
Definition logout : proc (settled value) :=
  get (VStr "/j_spring_security_logout") [] no_options.

(** [getCurrentUser()] *)
Definition getCurrentUser : proc (settled value) :=
  p <- get (VStr "/api/v1/currentuser") [] no_options ;;
  ret (catch_null p).

(** [async isConnected()] *)
Definition isConnected : proc (settled bool) :=
  async (
    p <- getCurrentUser ;;
    response <- await p ;;
    ret (truthy response)).

(** [async getExternalComponents({ forgeName, hubExternalId } = {})] *)
Definition getExternalComponents (keys : value) : proc (settled value) :=
  async (
    let keys := default_empty keys in
    forgeName <- lift (get_prop keys "forgeName") ;;
    hubExternalId <- lift (get_prop keys "hubExternalId") ;;
    forge <- lift (to_string forgeName) ;;
    id <- lift (to_string hubExternalId) ;;
    p <- get (VStr "/api/components") [("q", forge ++ ":" ++ id)] no_options ;;
    response <- await (catch_null p) ;;
    if truthy response then lift (get_prop response "items")
    else ret (VArr [] [])).

(** [getComponentVersion({ version: versionUrl } = {})] *)
Definition getComponentVersion (component : value) : proc (settled value) :=
  versionUrl <- lift (get_prop (default_empty component) "version") ;;
  get versionUrl [] no_options.

(** [getRelation(model, relationship)]: not an [async] method, so an
    exception of [get] reaches the caller of [getRelation] as it is; the
    [catch] handler sees the rejections of the promise [get] returns. *)
Definition getRelation (model : value) (relationship : string) : proc (settled value) :=
  let relationUrl := getFirstLink model relationship in
  p <- get relationUrl [("limit", "10000")] no_options ;;
  ret (catch_null p).

(** [async getListRelation(model, relationship)] *)
Definition getListRelation (model : value) (relationship : string) : proc (settled value) :=
  async (
    p <- getRelation model relationship ;;
    response <- await p ;;
    if truthy response then lift (get_prop response "items")
    else ret (VArr [] [])).

(** [async getComponentVersionReferences(componentVersion)] *)
Definition getComponentVersionReferences (componentVersion : value) : proc (settled value) :=
  async (
    p <- getListRelation componentVersion "references" ;;
    await p).

(** [async getReferenceProjectVersion({ projectName, projectVersionUrl } = {})] *)
Definition getReferenceProjectVersion (reference : value) : proc (settled value) :=
  async (
    let reference := default_empty reference in
    projectName <- lift (get_prop reference "projectName") ;;
    projectVersionUrl <- lift (get_prop reference "projectVersionUrl") ;;
    p <- get projectVersionUrl [] no_options ;;
    projectVersion <- await (catch_null p) ;;
    if truthy projectVersion
    then lift (set_prop projectVersion "projectName" projectName)
    else ret projectVersion).

(** [async getComponentVersionReferenceProjects(componentVersion)] *)
Definition getComponentVersionReferenceProjects (componentVersion : value)
  : proc (settled value) :=
  async (
    p <- getComponentVersionReferences componentVersion ;;
    references <- await p ;;
    elems <- lift (array_elems "map" references) ;;
    promises <- map_p getReferenceProjectVersion elems ;;
    projectVersions <- await (promise_all promises) ;;
    ret (VArr projectVersions [])).

(** [getComponentPolicyViolations(bomComponent)] *)
Definition getComponentPolicyViolations (bomComponent : value) : proc (settled value) :=
  getListRelation bomComponent "policy-rules".

(** [getProjectVersionComponents(projectVersion)] *)
Definition getProjectVersionComponents (projectVersion : value) : proc (settled value) :=
  getListRelation projectVersion "components".

(** The callback of [filter] in [getMatchingBOMComponents]:
    [({ componentVersion }) => componentVersion === version] *)
Definition matchesVersion (version bomComponent : value) : completion bool :=
  cbind (get_prop bomComponent "componentVersion") (fun componentVersion =>
  Normal (strict_eq componentVersion version)).

(** [async getMatchingBOMComponents({ version }, projectVersions)] *)
Definition getMatchingBOMComponents (component : value) (projectVersions : list value)
  : proc (settled value) :=
  async (
    version <- lift (get_prop component "version") ;;
    promises <- map_p (fun projectVersion =>
      async (
        p <- getProjectVersionComponents projectVersion ;;
        bomComponents <- await p ;;
        elems <- lift (array_elems "filter" bomComponents) ;;
        kept <- lift (filter_c (matchesVersion version) elems) ;;
        ret (VArr kept []))) projectVersions ;;
    await (then_ (promise_all promises) (fun componentArrays =>
             Normal (concat_apply componentArrays)))).

(** The callback of [map] in [getComponentVulnerabilities]. *)
Definition withDetailsUrl (vulnerability : value) : completion value :=
  cbind (get_prop vulnerability "source") (fun source =>
  cbind (if strict_eq source (VStr "NVD") then
           cbind (get_prop vulnerability "vulnerabilityName") (fun name =>
           cbind (to_string name) (fun name =>
           Normal ("https://web.nvd.nist.gov/view/vuln/search-results?query="
                   ++ name ++ "&search_type=all&cves=on")))
         else if strict_eq source (VStr "VULNDB") then
           cbind (get_prop vulnerability "vulnerabilityName") (fun name =>
           cbind (to_string name) (fun name =>
           Normal (getOrigin ++ "/#vulnerabilities/id:" ++ name ++ "/view:overview")))
         else Normal "") (fun detailsUrl =>
  object_assign vulnerability [("detailsUrl", VStr detailsUrl)])).

(** [async getComponentVulnerabilities(componentVersion)] *)
Definition getComponentVulnerabilities (componentVersion : value) : proc (settled value) :=
  async (
    p <- getListRelation componentVersion "vulnerabilities" ;;
    vulnerabilities <- await p ;;
    elems <- lift (array_elems "map" vulnerabilities) ;;
    enriched <- lift (map_c withDetailsUrl elems) ;;
    ret (VArr enriched [])).

(** [getComponentRiskProfile(componentVersion)] *)
Definition getComponentRiskProfile (componentVersion : value) : proc (settled value) :=
  getRelation componentVersion "risk-profile".

(** [async getRegistrationId()] and [async getHubVersion()] *)
Definition getRegistrationId : proc (settled value) :=
  async (p <- get (VStr "/api/v1/registrations") [] no_options ;; await p).

Definition getHubVersion : proc (settled value) :=
  async (p <- get (VStr "/api/v1/current-version") [] no_options ;; await p).

(** The values [phoneHome] puts on the request body builder. *)
Record phone_home_fields : Type := mkPhoneHomeFields {
  registrationId : value;
  blackDuckName : string;
  blackDuckVersion : value;
  pluginVersion : value;
  thirdPartyName : value;
  thirdPartyVersion : value
}.

(** What [phoneHome] lets out: its requests, and the body it hands to the
    phone-home client. *)
Inductive telemetry : Type :=
| Requested (e : event)
| PhonedHome (phoneHomeRequestBody : value).

(** [async phoneHome(thirdPartyName, thirdPartyVersion, pluginVersion)].
    The builder and the client are classes of their own (phone-home/builder
    and phone-home/client), not among the sources, and are parameters here:
    [build fields] stands for making a builder, assigning the six fields and
    calling [build()]; [send body] for making a client and calling its
    [phoneHome(body)], whose result the method does not await. *)
Definition phoneHome (build : phone_home_fields -> completion value)
           (send : value -> completion unit)
           (thirdPartyName thirdPartyVersion pluginVersion : value)
  : list telemetry * completion (settled value) :=
  match
    (p <- getRegistrationId ;;
     registrationObject <- await p ;;
     registrationId <- lift (get_prop registrationObject "registrationId") ;;
     p <- getHubVersion ;;
     hubVersion <- await p ;;
     lift (build (mkPhoneHomeFields registrationId "Hub" hubVersion pluginVersion
                                    thirdPartyName thirdPartyVersion)))
  with
  | (evs, Throw e) => (map Requested evs, Normal (Rejected e))
  | (evs, Normal phoneHomeRequestBody) =>
      ((map Requested evs ++ [PhonedHome phoneHomeRequestBody])%list,
       Normal match send phoneHomeRequestBody with
              | Throw e => Rejected e
              | Normal _ => Fulfilled VUndef
              end)
  end.

End Methods.

End Hub.

(** * Test doubles

    Collaborators for the concrete runs below: resources that keep the URL
    of a relation in a field named after the relation, and a server given as
    a table from URL to response. *)

Module Doubles.

Definition field_links (model : value) (relationship : string) : option (list string) :=
  match model with
  | VObj own =>
      match lookup relationship own with
      | Some (VStr url) => Some [url]
      | _ => None
      end
  | _ => None
  end.

Definition table_server (table : list (string * response)) (url : string) (_ : options)
  : option response :=
  lookup url table.

Definition hub_at (origin : string) (table : list (string * response)) : environment :=
  mkEnvironment (Some origin) (fun _ => None) (table_server table) field_links.

Definition unconfigured : environment :=
  mkEnvironment None (fun _ => None) (table_server []) field_links.

Definition replies (v : value) : response := mkResponse true (Some v).
Definition fails_with (v : value) : response := mkResponse false (Some v).
Definition garbled (ok : bool) : response := mkResponse ok None.

End Doubles.

(** * Vocabulary of the properties *)

(** The options [get] hands to the platform for a call without overrides. *)
Definition get_options : options :=
  mkOptions (Some "GET") None None (Some "include").

(** A relation whose link is present and whose request can be built: the
    one request [getRelation] issues, and the promise it returns, by the
    answer of the server. *)
Definition relation_answer (answer : option response) : settled value :=
  match answer with
  | None => Fulfilled VNull
  | Some r =>
      if ok r then Fulfilled (match json r with Some v => v | None => VNull end)
      else Fulfilled VNull
  end.

Definition pair_string (kv : string * string) : string :=
  Url.form_encode (fst kv) ++ "=" ++ Url.form_encode (snd kv).

Definition security_check_options (username password : string) : options :=
  mkOptions (Some "POST")
            (Some [("Content-type", "application/x-www-form-urlencoded; charset=UTF-8")])
            (Some (Hub.login_body username password))
            (Some "include").

(** Occurrences of a delimiter in a form body. *)
Fixpoint count_char (c : ascii) (s : string) : nat :=
  match s with
  | EmptyString => 0
  | String x rest => (if Ascii.eqb x c then 1 else 0) + count_char c rest
  end.

Definition is_object (v : value) : Prop := exists own, v = VObj own.

(** The rule of the specification for the details URL, by the [source]
    and the [vulnerabilityName] of an entry. *)
Inductive details_rule (origin : string) : value -> value -> string -> Prop :=
| nvd_details (name : string) :
    details_rule origin (VStr "NVD") (VStr name)
      ("https://web.nvd.nist.gov/view/vuln/search-results?query=" ++ name
       ++ "&search_type=all&cves=on")
| vulndb_details (name : string) :
    details_rule origin (VStr "VULNDB") (VStr name)
      (origin ++ "/#vulnerabilities/id:" ++ name ++ "/view:overview")
| other_details (source name : value) :
    source <> VStr "NVD" -> source <> VStr "VULNDB" ->
    details_rule origin source name "".

(** What becomes of one entry: the entry itself with [detailsUrl] set by
    the rule. *)
Definition enriched (origin : string) (vulnerability out : value) : Prop :=
  exists own d,
    vulnerability = VObj own
    /\ details_rule origin (own_get own "source") (own_get own "vulnerabilityName") d
    /\ out = VObj (own_set "detailsUrl" (VStr d) own)
    /\ get_prop out "detailsUrl" = Normal (VStr d).

Definition named_entry (vulnerability : value) : Prop :=
  exists own name, vulnerability = VObj own /\ own_get own "vulnerabilityName" = VStr name.

(** An entry the rule speaks of: an object whose [vulnerabilityName] is a
    string when its [source] is NVD or VULNDB; with any other source the
    name may be anything, or missing. *)
Definition sourced_entry (vulnerability : value) : Prop :=
  exists own,
    vulnerability = VObj own
    /\ (own_get own "source" = VStr "NVD" \/ own_get own "source" = VStr "VULNDB" ->
        exists name, own_get own "vulnerabilityName" = VStr name).

(** An entry whose [componentVersion] field is the string [version]. *)
Definition has_componentVersion (version : string) (bomComponent : value) : bool :=
  match bomComponent with
  | VObj own =>
      match own_get own "componentVersion" with
      | VStr v => (v =? version)%string
      | _ => false
      end
  | _ => false
  end.

(** What a reference contributes to the result, in the words of the
    specification: the project version its [projectVersionUrl] yields, with
    the [projectName] of the reference on it, when the fetch succeeds; null
    when the fetch fails. *)
Inductive contributes (env : environment) : value -> value -> Prop :=
| fetched_project (own project : list (string * value)) (link : string) (url : Url.t)
                  (r : response) :
    own_get own "projectVersionUrl" = VStr link ->
    Hub.getRequestUrl env (VStr link) [] = Normal url ->
    network env (Url.href url) get_options = Some r ->
    ok r = true ->
    json r = Some (VObj project) ->
    contributes env (VObj own)
      (VObj (own_set "projectName" (own_get own "projectName") project))
| failed_project (own : list (string * value)) (link : string) (url : Url.t) :
    own_get own "projectVersionUrl" = VStr link ->
    Hub.getRequestUrl env (VStr link) [] = Normal url ->
    (network env (Url.href url) get_options = None
     \/ exists r, network env (Url.href url) get_options = Some r /\ ok r = false) ->
    contributes env (VObj own) VNull.

(** ** Vocabulary of the further properties *)

Fixpoint all_chars (p : ascii -> bool) (s : string) : bool :=
  match s with
  | EmptyString => true
  | String c rest => p c && all_chars p rest
  end.

(** A byte the pathname setter neither drops nor takes for a separator
    that the base does not show as one; the caret is left aside as well,
    since platforms differ on whether a path keeps it or encodes it. *)
Definition unremarkable (c : ascii) : bool :=
  negb (Ascii.eqb c Url.backslash || Url.is_tab_or_newline c || Ascii.eqb c "^").

Definition no_dot_segment (seg : string) : bool :=
  negb (Url.is_double_dot (Url.encode Url.path_byte seg)
        || Url.is_single_dot (Url.encode Url.path_byte seg)).

(** A base the pathname setter only has to percent-encode: no
    backslash, tab, newline or caret in it, and no dot segment among the
    segments after its leading slash. *)
Definition plain_base (base : string) : bool :=
  all_chars unremarkable base
  && let (seg, more) := Url.segments (match base with
                                      | String _ rest => rest
                                      | EmptyString => EmptyString
                                      end) in
     forallb no_dot_segment (seg :: more).

(** An entry whose [componentVersion] is strictly equal to [version],
    whatever kind of value [version] is. *)
Definition has_same_version (version bomComponent : value) : bool :=
  match bomComponent with
  | VObj own => strict_eq (own_get own "componentVersion") version
  | _ => false
  end.

(** * Sample servers and resources *)

Definition empty_bom_server : environment :=
  Doubles.hub_at "https://hub.example.com"
    [("https://hub.example.com/api/projects/1/versions/2/components?limit=10000",
      Doubles.replies (VObj [("totalCount", VNum 0); ("items", VArr [] [])]))].

Definition zero_body_server : environment :=
  Doubles.hub_at "https://hub.example.com"
    [("https://hub.example.com/api/projects/1/versions/2/components?limit=10000",
      Doubles.replies (VNum 0))].

Definition project_version_2 : value :=
  VObj [("components", VStr "https://hub.example.com/api/projects/1/versions/2/components")].

Definition one_component_server : environment :=
  Doubles.hub_at "https://hub.example.com"
    [("https://hub.example.com/api/projects/1/versions/2/components?limit=10000",
      Doubles.replies (VObj [("items", VArr [VObj [("componentName", VStr "left-pad")]] [])]))].

Definition current_user_url : Url.t :=
  Url.mk "https" "hub.example.com" "/api/v1/currentuser" None None.

Definition unauthorized_server : environment :=
  Doubles.hub_at "https://hub.example.com"
    [("https://hub.example.com/api/v1/currentuser",
      Doubles.fails_with (VObj [("errorMessage", VStr "Unauthorized")]))].

Definition garbled_server (ok : bool) : environment :=
  Doubles.hub_at "https://hub.example.com"
    [("https://hub.example.com/api/v1/currentuser", Doubles.garbled ok)].

Definition refusing (origin : string) : environment :=
  mkEnvironment (Some origin) (fun _ => Some (Denied "not granted"))
                (Doubles.table_server []) Doubles.field_links.

Definition vulnerable_component : value :=
  VObj [("vulnerabilities", VStr "https://hub.example.com/api/components/1/versions/2/vulnerabilities")].

Definition three_vulnerabilities : list value :=
  [VObj [("source", VStr "NVD"); ("vulnerabilityName", VStr "CVE-2020-1")];
   VObj [("source", VStr "VULNDB"); ("vulnerabilityName", VStr "CVE-2020-1")];
   VObj [("source", VStr "OTHER"); ("vulnerabilityName", VStr "CVE-2020-1")]].

Definition vulnerability_server : environment :=
  Doubles.hub_at "https://hub.example.com"
    [("https://hub.example.com/api/components/1/versions/2/vulnerabilities?limit=10000",
      Doubles.replies (VObj [("items", VArr three_vulnerabilities [])]))].

Definition bom_entry (name version : string) : value :=
  VObj [("componentName", VStr name); ("componentVersion", VStr version)].

Definition pv1 : value := VObj [("components", VStr "https://hub.example.com/api/pv/1/components")].
Definition pv2 : value := VObj [("components", VStr "https://hub.example.com/api/pv/2/components")].

Definition bom1 : list value := [bom_entry "in pv1" "V1"; bom_entry "other" "V2"].
Definition bom2 : list value := [bom_entry "in pv2" "V1"].

Definition bom_server : environment :=
  Doubles.hub_at "https://hub.example.com"
    [("https://hub.example.com/api/pv/1/components?limit=10000",
      Doubles.replies (VObj [("items", VArr bom1 [])]));
     ("https://hub.example.com/api/pv/2/components?limit=10000",
      Doubles.replies (VObj [("items", VArr bom2 [])]))].

Definition referenced_version : value :=
  VObj [("references", VStr "https://hub.example.com/api/components/1/versions/2/references")].

Definition two_references : list value :=
  [VObj [("projectName", VStr "alpha");
         ("projectVersionUrl", VStr "https://hub.example.com/api/projects/a/versions/1")];
   VObj [("projectName", VStr "beta");
         ("projectVersionUrl", VStr "https://hub.example.com/api/projects/b/versions/1")]].

(** The project version of alpha is served; the request for beta's is
    rejected by the platform. *)
Definition reference_server : environment :=
  Doubles.hub_at "https://hub.example.com"
    [("https://hub.example.com/api/components/1/versions/2/references?limit=10000",
      Doubles.replies (VObj [("items", VArr two_references [])]));
     ("https://hub.example.com/api/projects/a/versions/1",
      Doubles.replies (VObj [("versionName", VStr "1.0")]))].

Definition risky_component : value :=
  VObj [("risk-profile", VStr "https://hub.example.com/api/components/1/versions/2/risk-profile")].

Definition failing_server : environment :=
  Doubles.hub_at "https://hub.example.com"
    [("https://hub.example.com/api/components/1/versions/2/risk-profile?limit=10000",
      Doubles.fails_with (VObj [("errorMessage", VStr "Not found")]))].

(** ** Further samples *)


Definition signed_in_server : environment :=
  Doubles.hub_at "https://hub.example.com"
    [("https://hub.example.com/api/v1/currentuser",
      Doubles.replies (VObj [("userName", VStr "sysadmin")]))].

Definition itemless_server : environment :=
  Doubles.hub_at "https://hub.example.com"
    [("https://hub.example.com/api/components/1/versions/2/vulnerabilities?limit=10000",
      Doubles.replies (VObj [("totalCount", VNum 0)]))].

Definition vulnerabilities_with_a_hole : list value :=
  [VObj [("source", VStr "NVD"); ("vulnerabilityName", VStr "CVE-2020-1")];
   VNull;
   VObj [("source", VStr "OTHER"); ("vulnerabilityName", VStr "CVE-2020-2")]].

Definition holed_server : environment :=
  Doubles.hub_at "https://hub.example.com"
    [("https://hub.example.com/api/components/1/versions/2/vulnerabilities?limit=10000",
      Doubles.replies (VObj [("items", VArr vulnerabilities_with_a_hole [])]))].

Definition unversioned_bom : list value :=
  [VObj [("componentName", VStr "no version here")]; bom_entry "versioned" "V1"].

Definition unversioned_server : environment :=
  Doubles.hub_at "https://hub.example.com"
    [("https://hub.example.com/api/pv/1/components?limit=10000",
      Doubles.replies (VObj [("items", VArr unversioned_bom [])]))].

Definition component_server : environment :=
  Doubles.hub_at "https://hub.example.com"
    [("https://hub.example.com/api/components/1/versions/2",
      Doubles.fails_with (VObj [("errorMessage", VStr "Forbidden")]))].

Definition linkless_version : value := VObj [("projectName", VStr "no components link")].

Definition project_reference : list (string * value) :=
  [("projectName", VStr "alpha");
   ("projectVersionUrl", VStr "https://hub.example.com/api/projects/a/versions/1")].

Definition renamed_project_server : environment :=
  Doubles.hub_at "https://hub.example.com"
    [("https://hub.example.com/api/projects/a/versions/1",
      Doubles.replies (VObj [("projectName", VStr "stale"); ("versionName", VStr "1.0")]))].

Definition scalar_project_server (body : value) : environment :=
  Doubles.hub_at "https://hub.example.com"
    [("https://hub.example.com/api/projects/a/versions/1", Doubles.replies body)].

Definition security_check_server (answer : response) : environment :=
  Doubles.hub_at "https://hub.example.com"
    [("https://hub.example.com/j_spring_security_check", answer)].

Definition telemetry_server : environment :=
  Doubles.hub_at "https://hub.example.com"
    [("https://hub.example.com/api/v1/registrations",
      Doubles.replies (VObj [("registrationId", VStr "reg-42")]));
     ("https://hub.example.com/api/v1/current-version",
      Doubles.replies (VStr "4.8.0"))].

(** A builder that lists the six fields in an object, and a client that
    takes any body. *)
Definition listing_builder (fields : Hub.phone_home_fields) : completion value :=
  Normal (VObj [("regId", Hub.registrationId fields);
                ("blackDuckName", VStr (Hub.blackDuckName fields));
                ("blackDuckVersion", Hub.blackDuckVersion fields);
                ("pluginVersion", Hub.pluginVersion fields);
                ("thirdPartyName", Hub.thirdPartyName fields);
                ("thirdPartyVersion", Hub.thirdPartyVersion fields)]).

Definition accepting_client (_ : value) : completion unit := Normal tt.

(** * Properties *)

(** Case analysis on what the server answered: whether the platform's
    fetch resolved, the status of the response, and whether the body lets
    [errorMessage] be read. *)
Ltac by_answer :=
  repeat match goal with
         | |- context [network ?e ?u ?o] => destruct (network e u o) as [?r|]; cbn
         | |- context [ok ?r] => destruct (ok r); cbn
         | |- context [get_prop ?b ?k] => destruct (get_prop b k); cbn
         end.

(** ** The relation resolver *)

Lemma fetch_issues_one_request (env : environment) (url : Url.t) (opts : options) :
  exists o p, Hub.fetch env url opts = ([Fetched (Url.href url) o], Normal p).
Proof.
  unfold Hub.fetch, Hub.platform_fetch. by_answer; eauto.
Qed.

(** Whenever [get] hands a promise to its caller, a request has been
    issued, whatever base it was given: no base makes it answer without the
    platform's fetch being called. *)
Lemma get_promise_after_request (env : environment) (baseUrl : value)
      (queryMap : list (string * string)) (fetchOpts : options)
      (evs : list event) (p : settled value) :
  Hub.get env baseUrl queryMap fetchOpts = (evs, Normal p) ->
  exists url o, evs = [Fetched url o].
Proof.
  unfold Hub.get.
  destruct (Hub.getRequestUrl env _ _) as [e|url]; cbn.
  - discriminate.
  - destruct (fetch_issues_one_request env url
                (merge (mkOptions (Some "GET") None None None) fetchOpts)) as (o & q & E).
    rewrite E. cbn. intros H. inversion H. eauto.
Qed.

(** So [getRelation] has no way to return null without a request. *)
Lemma getRelation_promise_after_request (env : environment) (model : value)
      (relationship : string) (evs : list event) (p : settled value) :
  Hub.getRelation env model relationship = (evs, Normal p) ->
  exists url o, evs = [Fetched url o].
Proof.
  unfold Hub.getRelation. intros H.
  destruct (Hub.get env _ _ _) as [evs' [e|q]] eqn:E; cbn in H; [discriminate|].
  destruct (get_promise_after_request env _ _ _ _ _ E) as (url & o & ->).
  inversion H. eauto.
Qed.

Lemma get_without_link_throws (env : environment) (model : value)
      (relationship : string) (queryMap : list (string * string)) (o : options) :
  linksFor env model relationship = None ->
  Hub.get env (Hub.getFirstLink env model relationship) queryMap o
  = ([], Throw (TypeError (CannotRead "startsWith"))).
Proof.
  intros H. unfold Hub.getFirstLink. rewrite H. reflexivity.
Qed.

(** C1 (as the code has it).  For a relation name absent from the link
    collection of the resource, [getRelation] issues no request, and it does
    not return null: the TypeError of [baseUrl.startsWith] on the missing
    link is raised inside [get], before the promise exists that
    [.catch(() => null)] would turn into null, and reaches the caller of
    [getRelation]. *)
Theorem getRelation_absent_relation_throws (env : environment) (model : value)
        (relationship : string) :
  linksFor env model relationship = None ->
  Hub.getRelation env model relationship
  = ([], Throw (TypeError (CannotRead "startsWith"))).
Proof.
  intros H. unfold Hub.getRelation.
  rewrite (get_without_link_throws env model relationship _ _ H). reflexivity.
Qed.

Lemma getRelation_absent_relation_throws_run :
  linksFor (Doubles.hub_at "https://hub.example.com" []) (VObj []) "risk-profile" = None
  /\ Hub.getRelation (Doubles.hub_at "https://hub.example.com" []) (VObj []) "risk-profile"
     = ([], Throw (TypeError (CannotRead "startsWith"))).
Proof.
  split.
  - reflexivity.
  - apply (getRelation_absent_relation_throws
             (Doubles.hub_at "https://hub.example.com" []) (VObj []) "risk-profile").
    reflexivity.
Defined.

(** The same defect seen from [getListRelation]: its promise rejects
    where an empty sequence was meant. *)
Lemma getListRelation_absent_relation_rejects (env : environment) (model : value)
      (relationship : string) :
  linksFor env model relationship = None ->
  Hub.getListRelation env model relationship
  = ([], Normal (Rejected (TypeError (CannotRead "startsWith")))).
Proof.
  intros H. unfold Hub.getListRelation, Hub.getRelation.
  rewrite (get_without_link_throws env model relationship _ _ H). reflexivity.
Qed.

Lemma fetch_run (env : environment) (url : Url.t) (o : options) :
  Hub.fetch env url o
  = ([Fetched (Url.href url) (merge (mkOptions None None None (Some "include")) o)],
     Normal
       match network env (Url.href url) (merge (mkOptions None None None (Some "include")) o) with
       | None => Rejected NetworkError
       | Some r =>
           let body := match json r with Some v => v | None => VNull end in
           if ok r then Fulfilled body
           else match get_prop body "errorMessage" with
                | Throw e => Rejected e
                | Normal message => Rejected (Error message)
                end
       end).
Proof.
  unfold Hub.fetch, Hub.platform_fetch. by_answer; reflexivity.
Qed.

Lemma getRelation_run (env : environment) (model : value) (relationship link : string)
      (rest : list string) (url : Url.t) :
  linksFor env model relationship = Some (link :: rest) ->
  Hub.getRequestUrl env (VStr link) [("limit", "10000")] = Normal url ->
  Hub.getRelation env model relationship
  = ([Fetched (Url.href url) get_options],
     Normal (relation_answer (network env (Url.href url) get_options))).
Proof.
  intros Hl Hu. unfold Hub.getRelation, Hub.getFirstLink, Hub.get.
  rewrite Hl, Hu. cbn. rewrite fetch_run. cbn.
  change (merge _ (merge _ no_options)) with get_options.
  unfold relation_answer. by_answer; reflexivity.
Qed.

(** C2.  When the relation is present and the request for its first link
    fails, either because the platform's fetch rejects or because the
    response carries a failure status, [getRelation] returns a promise
    fulfilled with null: nothing is raised and nothing is rejected. *)
Theorem getRelation_failed_fetch_is_null (env : environment) (model : value)
        (relationship link : string) (rest : list string) (url : Url.t) :
  linksFor env model relationship = Some (link :: rest) ->
  Hub.getRequestUrl env (VStr link) [("limit", "10000")] = Normal url ->
  (network env (Url.href url) get_options = None
   \/ exists r, network env (Url.href url) get_options = Some r /\ ok r = false) ->
  Hub.getRelation env model relationship
  = ([Fetched (Url.href url) get_options], Normal (Fulfilled VNull)).
Proof.
  intros Hl Hu Hfail.
  rewrite (getRelation_run env model relationship link rest url Hl Hu).
  destruct Hfail as [E | (r & E & Hok)]; rewrite E; cbn; [|rewrite Hok]; reflexivity.
Qed.

Lemma getRelation_failed_fetch_is_null_run :
  Hub.getRelation failing_server risky_component "risk-profile"
  = ([Fetched "https://hub.example.com/api/components/1/versions/2/risk-profile?limit=10000"
              get_options],
     Normal (Fulfilled VNull)).
Proof.
  apply (getRelation_failed_fetch_is_null failing_server risky_component "risk-profile"
           "https://hub.example.com/api/components/1/versions/2/risk-profile" []
           (Url.mk "https" "hub.example.com" "/api/components/1/versions/2/risk-profile"
                   (Some "limit=10000") None)).
  - reflexivity.
  - reflexivity.
  - right. exists (Doubles.fails_with (VObj [("errorMessage", VStr "Not found")])).
    split; reflexivity.
Defined.

(** ** List relations *)

(** C3, as stated, fails.  For a collection the server reports as empty,
    [getListRelation] returns the empty sequence although [getRelation]
    returned the response object and not null; and for a body that is falsy
    without being null, here the number 0, it returns the empty sequence
    where [getRelation] returned that body. *)
Lemma getListRelation_empty_without_null :
  (snd (Hub.getListRelation empty_bom_server project_version_2 "components")
   = Normal (Fulfilled (VArr [] []))
   /\ snd (Hub.getRelation empty_bom_server project_version_2 "components")
      = Normal (Fulfilled (VObj [("totalCount", VNum 0); ("items", VArr [] [])]))
   /\ snd (Hub.getRelation empty_bom_server project_version_2 "components")
      <> Normal (Fulfilled VNull))
  /\ (snd (Hub.getListRelation zero_body_server project_version_2 "components")
      = Normal (Fulfilled (VArr [] []))
      /\ snd (Hub.getRelation zero_body_server project_version_2 "components")
         = Normal (Fulfilled (VNum 0))
      /\ get_prop (VNum 0) "items" = Normal VUndef).
Proof.
  repeat split; try reflexivity. vm_compute. discriminate.
Qed.

(** C3 (amended).  [getListRelation] decides by the truthiness of what
    [getRelation] returned: null, and any other falsy value, gives the empty
    sequence; a truthy value gives its [items] field as it is, which may
    itself be empty. *)
Theorem getListRelation_by_truthiness (env : environment) (model : value)
        (relationship : string) (evs : list event) (v : value) :
  Hub.getRelation env model relationship = (evs, Normal (Fulfilled v)) ->
  (v = VNull ->
   Hub.getListRelation env model relationship = (evs, Normal (Fulfilled (VArr [] []))))
  /\ (truthy v = false ->
      Hub.getListRelation env model relationship = (evs, Normal (Fulfilled (VArr [] []))))
  /\ (truthy v = true ->
      exists items, get_prop v "items" = Normal items
      /\ Hub.getListRelation env model relationship = (evs, Normal (Fulfilled items))).
Proof.
  intros H.
  assert (F : truthy v = false ->
              Hub.getListRelation env model relationship
              = (evs, Normal (Fulfilled (VArr [] [])))).
  { intros T. unfold Hub.getListRelation. rewrite H. cbn. rewrite T. cbn.
    now rewrite app_nil_r. }
  split; [intros ->; now apply F|]. split; [exact F|].
  intros T. unfold Hub.getListRelation. rewrite H. cbn. rewrite T.
  destruct v; try discriminate T; cbn; rewrite app_nil_r; eauto.
Qed.

Lemma getListRelation_by_truthiness_run :
  exists items,
    get_prop (VObj [("items", VArr [VObj [("componentName", VStr "left-pad")]] [])]) "items"
    = Normal items
    /\ Hub.getListRelation one_component_server project_version_2 "components"
       = ([Fetched "https://hub.example.com/api/projects/1/versions/2/components?limit=10000"
                   get_options],
          Normal (Fulfilled items)).
Proof.
  apply (getListRelation_by_truthiness one_component_server project_version_2 "components").
  - reflexivity.
  - reflexivity.
Defined.

(** ** The transport *)

(** C4.  Whatever the server answers, [fetch] issues the one request with
    the cookies included and settles by the answer: a body that does not
    decode counts as null and raises nothing by itself; a success status
    returns the decoded body; a failure status rejects with an [Error] made
    from the body's [errorMessage] field, and, when the body is null because
    it did not decode, with the TypeError of reading that field off null. *)
Theorem fetch_decodes_then_checks_status (env : environment) (url : Url.t) (o : options)
        (r : response) :
  network env (Url.href url) (merge (mkOptions None None None (Some "include")) o) = Some r ->
  exists out,
    Hub.fetch env url o
    = ([Fetched (Url.href url) (merge (mkOptions None None None (Some "include")) o)],
       Normal out)
    /\ (ok r = true -> json r = None -> out = Fulfilled VNull)
    /\ (ok r = true -> forall v, json r = Some v -> out = Fulfilled v)
    /\ (ok r = false -> forall v message,
          json r = Some v -> get_prop v "errorMessage" = Normal message ->
          out = Rejected (Error message))
    /\ (ok r = false -> json r = None ->
        out = Rejected (TypeError (CannotRead "errorMessage"))).
Proof.
  intros H. rewrite fetch_run, H. eexists. split; [reflexivity|].
  cbn. destruct (ok r); repeat split; try discriminate.
  - intros _ ->. reflexivity.
  - intros _ v ->. reflexivity.
  - intros _ v message -> ->. reflexivity.
  - intros _ ->. reflexivity.
Qed.

Lemma fetch_decodes_then_checks_status_run :
  Hub.fetch unauthorized_server current_user_url (mkOptions (Some "GET") None None None)
  = ([Fetched "https://hub.example.com/api/v1/currentuser" get_options],
     Normal (Rejected (Error (VStr "Unauthorized")))).
Proof.
  destruct (fetch_decodes_then_checks_status unauthorized_server current_user_url
              (mkOptions (Some "GET") None None None)
              (Doubles.fails_with (VObj [("errorMessage", VStr "Unauthorized")]))
              eq_refl)
    as (out & E & _ & _ & Hfail & _).
  rewrite E.
  rewrite (Hfail eq_refl _ (VStr "Unauthorized") eq_refl eq_refl).
  reflexivity.
Defined.

(** A body that is the JSON literal null behaves like one that did not
    decode. *)
Lemma fetch_failure_with_null_body (env : environment) (url : Url.t) (o : options)
      (r : response) :
  network env (Url.href url) (merge (mkOptions None None None (Some "include")) o) = Some r ->
  ok r = false -> json r = Some VNull ->
  snd (Hub.fetch env url o) = Normal (Rejected (TypeError (CannotRead "errorMessage"))).
Proof.
  intros H Hok Hj. rewrite fetch_run, H. cbn. rewrite Hok, Hj. reflexivity.
Qed.

(** The two outcomes of a body that does not decode, run on a server
    that answers /api/v1/currentuser with garbage. *)
Example fetch_garbled_body :
  snd (Hub.fetch (garbled_server true) current_user_url no_options)
  = Normal (Fulfilled VNull)
  /\ snd (Hub.fetch (garbled_server false) current_user_url no_options)
     = Normal (Rejected (TypeError (CannotRead "errorMessage"))).
Proof.
  split; reflexivity.
Qed.

(** ** Request URLs *)

Lemma string_app_assoc (a b c : string) : (a ++ (b ++ c) = (a ++ b) ++ c)%string.
Proof.
  induction a as [|x a IH]; cbn; [reflexivity|now rewrite IH].
Qed.

Lemma append_search (u : Url.t) (k v : string) (old : string) :
  Url.search u = Some old -> old <> "" ->
  Url.search (Url.append u k v) = Some (old ++ "&" ++ pair_string (k, v)).
Proof.
  intros H Hne. unfold Url.append. cbn. rewrite H.
  destruct (String.eqb_spec old ""); [contradiction|reflexivity].
Qed.

Lemma appended_query (queryMap : list (string * string)) : forall (u : Url.t) (old : string),
  Url.search u = Some old -> old <> "" ->
  Url.search (fold_left (fun u kv => Url.append u (fst kv) (snd kv)) queryMap u)
  = Some (String.concat "&" (old :: map pair_string queryMap)).
Proof.
  induction queryMap as [|[k v] rest IH]; intros u old H Hne; cbn [fold_left map fst snd].
  - cbn. exact H.
  - rewrite (IH (Url.append u k v) (old ++ "&" ++ pair_string (k, v))).
    + cbn [String.concat]. destruct (map pair_string rest) eqn:E.
      * reflexivity.
      * cbn [String.concat]. rewrite <- !string_app_assoc. reflexivity.
    + now apply append_search.
    + destruct old; [contradiction|discriminate].
Qed.

(** The entries of the query map reach the URL in the order of the map,
    each as [key=value] in form encoding, joined by [&]. *)
Lemma query_in_insertion_order (u : Url.t) (kv : string * string)
      (rest : list (string * string)) :
  Url.search u = None ->
  Url.search (fold_left (fun u kv => Url.append u (fst kv) (snd kv)) (kv :: rest) u)
  = Some (String.concat "&" (map pair_string (kv :: rest))).
Proof.
  intros H. cbn [fold_left map].
  apply appended_query.
  - unfold Url.append. cbn. rewrite H. reflexivity.
  - unfold pair_string. destruct (Url.form_encode (fst kv)); discriminate.
Qed.

(** A base that does not start with a slash is parsed on its own: the
    stored origin plays no part. *)
Lemma absolute_base_bypasses_origin (env env' : environment) (base : string)
      (queryMap : list (string * string)) :
  Hub.startsWith_slash base = false ->
  Hub.getRequestUrl env (VStr base) queryMap = Hub.getRequestUrl env' (VStr base) queryMap.
Proof.
  intros H. unfold Hub.getRequestUrl. cbn. rewrite H. reflexivity.
Qed.

(** C5.  With the origin https://hub.example.com stored, the root-relative
    base /api/v1/x with the query a=1 gives
    https://hub.example.com/api/v1/x?a=1, and the absolute base
    https://other.example.com/y with an empty query gives itself. *)
Theorem getRequestUrl_examples (env : environment) :
  hubOrigin env = Some "https://hub.example.com" ->
  (exists url, Hub.getRequestUrl env (VStr "/api/v1/x") [("a", "1")] = Normal url
               /\ Url.href url = "https://hub.example.com/api/v1/x?a=1")
  /\ (exists url, Hub.getRequestUrl env (VStr "https://other.example.com/y") [] = Normal url
                  /\ Url.href url = "https://other.example.com/y").
Proof.
  intros H. unfold Hub.getRequestUrl, Hub.getOrigin. rewrite H.
  split; eexists; split; reflexivity.
Qed.

Lemma getRequestUrl_examples_run :
  (exists url, Hub.getRequestUrl (Doubles.hub_at "https://hub.example.com" [])
                 (VStr "/api/v1/x") [("a", "1")] = Normal url
               /\ Url.href url = "https://hub.example.com/api/v1/x?a=1")
  /\ (exists url, Hub.getRequestUrl (Doubles.hub_at "https://hub.example.com" [])
                    (VStr "https://other.example.com/y") [] = Normal url
                  /\ Url.href url = "https://other.example.com/y").
Proof.
  apply (getRequestUrl_examples (Doubles.hub_at "https://hub.example.com" [])).
  reflexivity.
Defined.

(** ** Login *)

Lemma getOrigin_stored (env : environment) (origin : string) :
  hubOrigin env = Some origin -> Hub.getOrigin env = origin.
Proof.
  intros H. unfold Hub.getOrigin. rewrite H.
  destruct (String.eqb_spec origin ""); congruence.
Qed.

Lemma login_with_origin (env : environment) (username password origin : string) :
  hubOrigin env = Some origin -> origin <> "" ->
  Hub.login env username password
  = async (granted <- Hub.requestUrl env origin ;;
           _ <- await granted ;;
           p <- Hub.post env (VStr "/j_spring_security_check") []
                  (Hub.login_options username password) ;;
           await p).
Proof.
  intros H Hne. unfold Hub.login. rewrite (getOrigin_stored env origin H).
  destruct (String.eqb_spec origin ""); [contradiction|reflexivity].
Qed.

Lemma login_posts (env : environment) (username password origin : string) (url : Url.t) :
  hubOrigin env = Some origin -> origin <> "" ->
  permission env origin = None ->
  Url.new origin = Normal url ->
  exists out,
    Hub.login env username password
    = ([PermissionAsked origin;
        Fetched (Url.href (Url.set_pathname url "/j_spring_security_check"))
                (security_check_options username password)],
       Normal out).
Proof.
  intros H Hne Hp Hu. rewrite (login_with_origin env username password origin H Hne).
  unfold Hub.requestUrl, Hub.post, Hub.getRequestUrl. rewrite Hp.
  rewrite (getOrigin_stored env origin H). cbn. rewrite Hu. cbn.
  rewrite fetch_run. cbn.
  change (merge _ (merge _ (Hub.login_options username password)))
    with (security_check_options username password).
  by_answer; eauto.
Qed.

(** C6.  Without a stored origin (nothing stored, or the empty string)
    [login] rejects with the configuration error and nothing leaves the
    process.  With an origin, the permission is asked first; when it is
    refused, [login] rejects with that refusal and no request is issued;
    when it is granted, the form-urlencoded POST to /j_spring_security_check
    on the origin follows. *)
Theorem login_origin_then_permission_then_post (env : environment)
        (username password : string) :
  (hubOrigin env = None \/ hubOrigin env = Some "" ->
   Hub.login env username password
   = ([], Normal (Rejected (Error (VStr "No Hub origin saved")))))
  /\ (forall origin e,
        hubOrigin env = Some origin -> origin <> "" ->
        permission env origin = Some e ->
        Hub.login env username password = ([PermissionAsked origin], Normal (Rejected e)))
  /\ (forall origin url,
        hubOrigin env = Some origin -> origin <> "" ->
        permission env origin = None ->
        Url.new origin = Normal url ->
        exists out,
          Hub.login env username password
          = ([PermissionAsked origin;
              Fetched (Url.href (Url.set_pathname url "/j_spring_security_check"))
                      (security_check_options username password)],
             Normal out)).
Proof.
  split; [|split].
  - intros [H|H]; unfold Hub.login, Hub.getOrigin; rewrite H; reflexivity.
  - intros origin e H Hne Hp.
    rewrite (login_with_origin env username password origin H Hne).
    unfold Hub.requestUrl. rewrite Hp. reflexivity.
  - intros origin url. apply login_posts.
Qed.

Lemma login_origin_then_permission_then_post_run :
  Hub.login Doubles.unconfigured "sysadmin" "blackduck"
  = ([], Normal (Rejected (Error (VStr "No Hub origin saved"))))
  /\ Hub.login (refusing "https://hub.example.com") "sysadmin" "blackduck"
     = ([PermissionAsked "https://hub.example.com"], Normal (Rejected (Denied "not granted")))
  /\ exists out,
       Hub.login (Doubles.hub_at "https://hub.example.com" []) "sysadmin" "blackduck"
       = ([PermissionAsked "https://hub.example.com";
           Fetched "https://hub.example.com/j_spring_security_check"
                   (security_check_options "sysadmin" "blackduck")],
          Normal out).
Proof.
  split; [|split].
  - apply (login_origin_then_permission_then_post Doubles.unconfigured "sysadmin" "blackduck").
    left. reflexivity.
  - apply (login_origin_then_permission_then_post
             (refusing "https://hub.example.com") "sysadmin" "blackduck").
    + reflexivity.
    + discriminate.
    + reflexivity.
  - apply (proj2 (proj2 (login_origin_then_permission_then_post
                           (Doubles.hub_at "https://hub.example.com" [])
                           "sysadmin" "blackduck"))
             "https://hub.example.com"
             (Url.mk "https" "hub.example.com" "/" None None)).
    + reflexivity.
    + discriminate.
    + reflexivity.
    + reflexivity.
Defined.

(** An origin that is stored but does not parse as a URL: the permission
    is asked, then [post] throws inside [login] and no request is issued. *)
Lemma login_unparsable_origin (env : environment) (username password origin : string) :
  hubOrigin env = Some origin -> origin <> "" ->
  permission env origin = None ->
  Url.parse origin = None ->
  Hub.login env username password
  = ([PermissionAsked origin], Normal (Rejected (TypeError InvalidURL))).
Proof.
  intros H Hne Hp Hu. rewrite (login_with_origin env username password origin H Hne).
  unfold Hub.requestUrl, Hub.post, Hub.getRequestUrl, Url.new. rewrite Hp.
  rewrite (getOrigin_stored env origin H). cbn. rewrite Hu. reflexivity.
Qed.

Lemma count_char_app (c : ascii) (a b : string) :
  count_char c (a ++ b) = count_char c a + count_char c b.
Proof.
  induction a as [|x a IH]; cbn; [reflexivity|rewrite IH; lia].
Qed.

Lemma form_byte_no_delimiter (c : ascii) :
  count_char "&" (Url.form_byte c) = 0 /\ count_char "=" (Url.form_byte c) = 0.
Proof.
  destruct c as [[] [] [] [] [] [] [] []]; split; reflexivity.
Qed.

(** What the form encoding of the platform would have made of a value:
    no delimiter of the form is left in it. *)
Lemma form_encode_no_delimiter (s : string) :
  count_char "&" (Url.form_encode s) = 0 /\ count_char "=" (Url.form_encode s) = 0.
Proof.
  induction s as [|c s [IH1 IH2]]; [split; reflexivity|].
  unfold Url.form_encode in *. cbn [Url.encode]. rewrite !count_char_app, IH1, IH2.
  destruct (form_byte_no_delimiter c) as [-> ->]. split; reflexivity.
Qed.




(** ** Graph traversals *)

Lemma strict_eq_string (v : value) (s : string) :
  strict_eq v (VStr s) = true <-> v = VStr s.
Proof.
  destruct v; cbn; split; try discriminate; try congruence.
  - intros H. apply String.eqb_eq in H. congruence.
  - intros H. injection H as ->. apply String.eqb_refl.
Qed.

Lemma own_get_own_set {k : string} {v : value} (own : list (string * value)) :
  own_get (own_set k v own) k = v.
Proof.
  unfold own_get. induction own as [|[k' v'] rest IH]; cbn.
  - now rewrite String.eqb_refl.
  - destruct (String.eqb_spec k' k); cbn.
    + now rewrite String.eqb_refl.
    + destruct (String.eqb_spec k' k); [contradiction|exact IH].
Qed.

Lemma bind_ret_l {A B} (a : A) (k : A -> proc B) : (x <- ret a ;; k x) = k a.
Proof.
  unfold bind, ret. destruct (k a). reflexivity.
Qed.

Lemma promise_all_fulfilled {A} (l : list A) :
  promise_all (map Fulfilled l) = Fulfilled l.
Proof.
  induction l as [|a l IH]; cbn; [reflexivity|now rewrite IH].
Qed.

(** *** Vulnerabilities *)

Lemma withDetailsUrl_by_rule (env : environment) (vulnerability : value) :
  named_entry vulnerability ->
  exists out, Hub.withDetailsUrl env vulnerability = Normal out
              /\ enriched (Hub.getOrigin env) vulnerability out.
Proof.
  intros (own & name & -> & Hname). unfold Hub.withDetailsUrl, enriched. cbn.
  rewrite Hname.
  destruct (strict_eq (own_get own "source") (VStr "NVD")) eqn:E1.
  - apply strict_eq_string in E1. cbn. eexists. split; [reflexivity|].
    exists own. eexists. split; [reflexivity|]. rewrite E1, Hname.
    split; [apply nvd_details|]. split; [reflexivity|].
    cbn. now rewrite own_get_own_set.
  - destruct (strict_eq (own_get own "source") (VStr "VULNDB")) eqn:E2.
    + apply strict_eq_string in E2. cbn. eexists. split; [reflexivity|].
      exists own. eexists. split; [reflexivity|]. rewrite E2, Hname.
      split; [apply vulndb_details|]. split; [reflexivity|].
      cbn. now rewrite own_get_own_set.
    + cbn. eexists. split; [reflexivity|].
      exists own, "". split; [reflexivity|].
      split; [|split; [reflexivity|cbn; now rewrite own_get_own_set]].
      apply other_details; intros C; apply strict_eq_string in C; congruence.
Qed.

Lemma map_withDetailsUrl (env : environment) (vulnerabilities : list value) :
  Forall named_entry vulnerabilities ->
  exists out, map_c (Hub.withDetailsUrl env) vulnerabilities = Normal out
              /\ Forall2 (enriched (Hub.getOrigin env)) vulnerabilities out.
Proof.
  induction 1 as [|v vs Hv _ (outs & E & F)]; cbn.
  - exists []. split; [reflexivity|constructor].
  - destruct (withDetailsUrl_by_rule env v Hv) as (o & Eo & Ho).
    rewrite Eo, E. cbn. exists (o :: outs). split; [reflexivity|now constructor].
Qed.

Lemma withDetailsUrl_sourced (env : environment) (origin : string) (vulnerability : value) :
  hubOrigin env = Some origin ->
  sourced_entry vulnerability ->
  exists out, Hub.withDetailsUrl env vulnerability = Normal out
              /\ enriched origin vulnerability out.
Proof.
  intros Ho (own & -> & Hname). unfold Hub.withDetailsUrl, enriched.
  rewrite (getOrigin_stored env origin Ho).
  cbn [get_prop cbind].
  destruct (strict_eq (own_get own "source") (VStr "NVD")) eqn:E1.
  - apply strict_eq_string in E1. destruct (Hname (or_introl E1)) as (name & Hn).
    rewrite Hn. cbn. eexists. split; [reflexivity|].
    exists own. eexists. split; [reflexivity|]. rewrite E1, Hn.
    split; [apply nvd_details|]. split; [reflexivity|].
    cbn. now rewrite own_get_own_set.
  - destruct (strict_eq (own_get own "source") (VStr "VULNDB")) eqn:E2.
    + apply strict_eq_string in E2. destruct (Hname (or_intror E2)) as (name & Hn).
      rewrite Hn. cbn. eexists. split; [reflexivity|].
      exists own. eexists. split; [reflexivity|]. rewrite E2, Hn.
      split; [apply vulndb_details|]. split; [reflexivity|].
      cbn. now rewrite own_get_own_set.
    + cbn. eexists. split; [reflexivity|].
      exists own, "". split; [reflexivity|].
      split; [|split; [reflexivity|cbn; now rewrite own_get_own_set]].
      apply other_details; intros C; apply strict_eq_string in C; congruence.
Qed.

Lemma map_withDetailsUrl_sourced (env : environment) (origin : string)
      (vulnerabilities : list value) :
  hubOrigin env = Some origin ->
  Forall sourced_entry vulnerabilities ->
  exists out, map_c (Hub.withDetailsUrl env) vulnerabilities = Normal out
              /\ Forall2 (enriched origin) vulnerabilities out.
Proof.
  intros Ho. induction 1 as [|v vs Hv _ (outs & E & F)]; cbn.
  - exists []. split; [reflexivity|constructor].
  - destruct (withDetailsUrl_sourced env origin v Ho Hv) as (o & Eo & Hen).
    rewrite Eo, E. cbn. exists (o :: outs). split; [reflexivity|now constructor].
Qed.

(** C7.  With the origin [origin] stored, [getComponentVulnerabilities]
    returns the fetched entries in their order, each with its [detailsUrl]
    set by its source: for NVD the NVD search URL on the vulnerability
    name, for VULNDB the overview page of the vulnerability on [origin], for
    any other source value the empty string. *)
Theorem getComponentVulnerabilities_details_by_source (env : environment)
        (componentVersion : value) (origin : string) (evs : list event)
        (vulnerabilities : list value) :
  hubOrigin env = Some origin ->
  Hub.getListRelation env componentVersion "vulnerabilities"
  = (evs, Normal (Fulfilled (VArr vulnerabilities []))) ->
  Forall sourced_entry vulnerabilities ->
  exists out,
    Hub.getComponentVulnerabilities env componentVersion
    = (evs, Normal (Fulfilled (VArr out [])))
    /\ Forall2 (enriched origin) vulnerabilities out.
Proof.
  intros Ho H Hsourced.
  destruct (map_withDetailsUrl_sourced env origin vulnerabilities Ho Hsourced)
    as (out & E & F).
  exists out. split; [|exact F].
  unfold Hub.getComponentVulnerabilities. rewrite H. cbn. rewrite E. cbn.
  now rewrite app_nil_r.
Qed.

Lemma getComponentVulnerabilities_details_by_source_run :
  exists out,
    Hub.getComponentVulnerabilities vulnerability_server vulnerable_component
    = ([Fetched
          "https://hub.example.com/api/components/1/versions/2/vulnerabilities?limit=10000"
          get_options],
       Normal (Fulfilled (VArr out [])))
    /\ Forall2 (enriched "https://hub.example.com") three_vulnerabilities out.
Proof.
  apply (getComponentVulnerabilities_details_by_source vulnerability_server
           vulnerable_component "https://hub.example.com").
  - reflexivity.
  - reflexivity.
  - repeat constructor; eexists; (split; [reflexivity|]); intros _;
      exists "CVE-2020-1"; reflexivity.
Defined.

(** The three entries of the specification, run through the method. *)
Example getComponentVulnerabilities_three_sources :
  snd (Hub.getComponentVulnerabilities vulnerability_server vulnerable_component)
  = Normal (Fulfilled (VArr
      [VObj [("source", VStr "NVD"); ("vulnerabilityName", VStr "CVE-2020-1");
             ("detailsUrl",
              VStr "https://web.nvd.nist.gov/view/vuln/search-results?query=CVE-2020-1&search_type=all&cves=on")];
       VObj [("source", VStr "VULNDB"); ("vulnerabilityName", VStr "CVE-2020-1");
             ("detailsUrl",
              VStr "https://hub.example.com/#vulnerabilities/id:CVE-2020-1/view:overview")];
       VObj [("source", VStr "OTHER"); ("vulnerabilityName", VStr "CVE-2020-1");
             ("detailsUrl", VStr "")]] [])).
Proof.
  reflexivity.
Qed.

(** *** Matching BOM components *)

Lemma filter_matchesVersion (version : string) (bom : list value) :
  Forall is_object bom ->
  filter_c (Hub.matchesVersion (VStr version)) bom
  = Normal (filter (has_componentVersion version) bom).
Proof.
  induction 1 as [|c bom [own ->] _ IH]; cbn; [reflexivity|].
  rewrite IH. cbn. destruct (own_get own "componentVersion"); reflexivity.
Qed.

Lemma concat_apply_arrays (arrays : list (list value)) :
  concat_apply (map (fun elems => VArr elems []) arrays) = VArr (concat arrays) [].
Proof.
  unfold concat_apply. f_equal.
  induction arrays as [|a arrays IH]; cbn; [reflexivity|now rewrite IH].
Qed.

(** The fan-out of [getMatchingBOMComponents]: one promise per project
    version, in the order of the project versions, each fulfilled with the
    matching entries of that project version's BOM. *)
Lemma matching_fan_out (env : environment) (version : string) (projectVersions : list value)
      (fetched : list (list event * list value)) :
  Forall2 (fun projectVersion eb =>
             Hub.getProjectVersionComponents env projectVersion
             = (fst eb, Normal (Fulfilled (VArr (snd eb) [])))) projectVersions fetched ->
  Forall (fun eb => Forall is_object (snd eb)) fetched ->
  map_p (fun projectVersion =>
           async (p <- Hub.getProjectVersionComponents env projectVersion ;;
                  bomComponents <- await p ;;
                  elems <- lift (array_elems "filter" bomComponents) ;;
                  kept <- lift (filter_c (Hub.matchesVersion (VStr version)) elems) ;;
                  ret (VArr kept []))) projectVersions
  = (concat (map fst fetched),
     Normal (map Fulfilled
               (map (fun elems => VArr elems [])
                    (map (fun eb => filter (has_componentVersion version) (snd eb)) fetched)))).
Proof.
  induction 1 as [|pv [evs bom] pvs rest Hpv _ IH]; intros Hobj; cbn [map_p].
  - reflexivity.
  - inversion Hobj as [|? ? Hbom Hrest]; subst.
    rewrite (IH Hrest). rewrite Hpv. cbn in Hbom |- *.
    rewrite (filter_matchesVersion version bom Hbom). cbn.
    now rewrite !app_nil_r.
Qed.

(** C8.  Given the BOM each project version's [components] relation
    yields, [getMatchingBOMComponents] returns the entries whose
    [componentVersion] is the same string as the [version] of the external
    component, and only those: the matching entries of the first project
    version in their order, then those of the second, and so on.  The
    requests are those of the BOM fetches, in the order of the project
    versions. *)
Theorem getMatchingBOMComponents_filters_in_order (env : environment)
        (component : value) (version : string) (projectVersions : list value)
        (fetched : list (list event * list value)) :
  get_prop component "version" = Normal (VStr version) ->
  Forall2 (fun projectVersion eb =>
             Hub.getProjectVersionComponents env projectVersion
             = (fst eb, Normal (Fulfilled (VArr (snd eb) [])))) projectVersions fetched ->
  Forall (fun eb => Forall is_object (snd eb)) fetched ->
  Hub.getMatchingBOMComponents env component projectVersions
  = (concat (map fst fetched),
     Normal (Fulfilled
               (VArr (concat (map (fun eb => filter (has_componentVersion version) (snd eb))
                                  fetched)) []))).
Proof.
  intros Hv Hf Hobj. unfold Hub.getMatchingBOMComponents. rewrite Hv.
  change (lift (Normal (VStr version))) with (ret (VStr version)). rewrite bind_ret_l.
  rewrite (matching_fan_out env version projectVersions fetched Hf Hobj).
  cbn. rewrite promise_all_fulfilled. cbn. rewrite concat_apply_arrays.
  now rewrite app_nil_r.
Qed.

Lemma getMatchingBOMComponents_filters_in_order_run :
  Hub.getMatchingBOMComponents bom_server (VObj [("version", VStr "V1")]) [pv1; pv2]
  = ([Fetched "https://hub.example.com/api/pv/1/components?limit=10000" get_options;
      Fetched "https://hub.example.com/api/pv/2/components?limit=10000" get_options],
     Normal (Fulfilled (VArr [bom_entry "in pv1" "V1"; bom_entry "in pv2" "V1"] []))).
Proof.
  apply (getMatchingBOMComponents_filters_in_order bom_server (VObj [("version", VStr "V1")])
           "V1" [pv1; pv2]
           [([Fetched "https://hub.example.com/api/pv/1/components?limit=10000" get_options],
             bom1);
            ([Fetched "https://hub.example.com/api/pv/2/components?limit=10000" get_options],
             bom2)]).
  - reflexivity.
  - repeat constructor.
  - repeat constructor; eexists; reflexivity.
Defined.

(** *** Reference projects *)

Lemma getReferenceProjectVersion_contributes (env : environment) (reference out : value) :
  contributes env reference out ->
  exists request,
    Hub.getReferenceProjectVersion env reference = ([request], Normal (Fulfilled out)).
Proof.
  intros [own project link url r Hlink Hurl Hnet Hok Hjson
         | own link url Hlink Hurl Hfail];
    unfold Hub.getReferenceProjectVersion, Hub.get; cbn; rewrite Hlink, Hurl; cbn;
    rewrite fetch_run; cbn;
    change (merge _ (merge _ no_options)) with get_options.
  - rewrite Hnet. cbn. rewrite Hok, Hjson. cbn. eauto.
  - destruct Hfail as [Hnet | (r & Hnet & Hok)]; rewrite Hnet; cbn.
    + eauto.
    + rewrite Hok. destruct (get_prop _ _); cbn; eauto.
Qed.

Lemma reference_fan_out (env : environment) (references out : list value) :
  Forall2 (contributes env) references out ->
  exists requests,
    map_p (Hub.getReferenceProjectVersion env) references
    = (requests, Normal (map Fulfilled out))
    /\ length requests = length references.
Proof.
  induction 1 as [|reference o references out H _ (requests & E & L)]; cbn [map_p].
  - exists []. split; reflexivity.
  - destruct (getReferenceProjectVersion_contributes env reference o H) as (request & Er).
    rewrite Er, E. cbn. exists (request :: requests). rewrite app_nil_r.
    split; [reflexivity|cbn; now rewrite L].
Qed.

(** A reference without a [projectVersionUrl] is not covered by
    [contributes]: [get] throws on the missing URL before the promise exists
    that [.catch(() => null)] belongs to, the promise of
    [getReferenceProjectVersion] rejects, and with it [Promise.all]. *)
Lemma getReferenceProjectVersion_without_url_rejects (env : environment)
      (own : list (string * value)) :
  own_get own "projectVersionUrl" = VUndef ->
  Hub.getReferenceProjectVersion env (VObj own)
  = ([], Normal (Rejected (TypeError (CannotRead "startsWith")))).
Proof.
  intros H. unfold Hub.getReferenceProjectVersion. cbn. rewrite H. reflexivity.
Qed.

(** C9.  When the [references] relation of a component version yields n
    references, [getComponentVersionReferenceProjects] returns n entries,
    the i-th being what the i-th reference contributes: its project version
    with the reference's [projectName] on it when the fetch of
    [projectVersionUrl] succeeds, null when that fetch fails.  One request
    per reference follows the request for the references. *)
Theorem getComponentVersionReferenceProjects_aligned (env : environment)
        (componentVersion : value) (evs : list event) (references out : list value) :
  Hub.getComponentVersionReferences env componentVersion
  = (evs, Normal (Fulfilled (VArr references []))) ->
  Forall2 (contributes env) references out ->
  exists requests,
    Hub.getComponentVersionReferenceProjects env componentVersion
    = ((evs ++ requests)%list, Normal (Fulfilled (VArr out [])))
    /\ length requests = length references
    /\ length out = length references.
Proof.
  intros H Hc. destruct (reference_fan_out env references out Hc) as (requests & E & L).
  exists requests. split; [|split; [exact L|symmetry; eapply Forall2_length; eassumption]].
  unfold Hub.getComponentVersionReferenceProjects. rewrite H. cbn. rewrite E. cbn.
  rewrite promise_all_fulfilled. cbn. now rewrite !app_nil_r.
Qed.

Lemma getComponentVersionReferenceProjects_aligned_run :
  exists requests,
    Hub.getComponentVersionReferenceProjects reference_server referenced_version
    = (([Fetched
           "https://hub.example.com/api/components/1/versions/2/references?limit=10000"
           get_options] ++ requests)%list,
       Normal (Fulfilled
                 (VArr [VObj [("versionName", VStr "1.0"); ("projectName", VStr "alpha")];
                        VNull] [])))
    /\ length requests = 2
    /\ length [VObj [("versionName", VStr "1.0"); ("projectName", VStr "alpha")]; VNull] = 2.
Proof.
  apply (getComponentVersionReferenceProjects_aligned reference_server referenced_version
           [Fetched "https://hub.example.com/api/components/1/versions/2/references?limit=10000"
                    get_options]
           two_references).
  - reflexivity.
  - constructor; [|constructor; [|constructor]].
    + apply (fetched_project reference_server
               [("projectName", VStr "alpha");
                ("projectVersionUrl", VStr "https://hub.example.com/api/projects/a/versions/1")]
               [("versionName", VStr "1.0")]
               "https://hub.example.com/api/projects/a/versions/1"
               (Url.mk "https" "hub.example.com" "/api/projects/a/versions/1" None None)
               (Doubles.replies (VObj [("versionName", VStr "1.0")]))); reflexivity.
    + apply (failed_project reference_server
               [("projectName", VStr "beta");
                ("projectVersionUrl", VStr "https://hub.example.com/api/projects/b/versions/1")]
               "https://hub.example.com/api/projects/b/versions/1"
               (Url.mk "https" "hub.example.com" "/api/projects/b/versions/1" None None));
        [reflexivity|reflexivity|left; reflexivity].
Defined.

(** * Further properties of the class *)

(** ** Transport *)

Lemma get_run (env : environment) (baseUrl : value) (queryMap : list (string * string))
      (fetchOpts : options) (url : Url.t) :
  Hub.getRequestUrl env baseUrl queryMap = Normal url ->
  Hub.get env baseUrl queryMap fetchOpts
  = Hub.fetch env url (merge (mkOptions (Some "GET") None None None) fetchOpts).
Proof.
  intros H. unfold Hub.get. rewrite H.
  change (lift (Normal url)) with (ret url). now rewrite bind_ret_l.
Qed.

Lemma get_throws (env : environment) (baseUrl : value) (queryMap : list (string * string))
      (fetchOpts : options) (e : error) :
  Hub.getRequestUrl env baseUrl queryMap = Throw e ->
  Hub.get env baseUrl queryMap fetchOpts = ([], Throw e).
Proof.
  intros H. unfold Hub.get. rewrite H. reflexivity.
Qed.



Lemma get_root_relative_origin_missing (env : environment) (base : string)
      (queryMap : list (string * string)) (fetchOpts : options) :
  Hub.startsWith_slash base = true ->
  hubOrigin env = None \/ hubOrigin env = Some "" ->
  Hub.get env (VStr base) queryMap fetchOpts = ([], Throw (TypeError InvalidURL)).
Proof.
  intros Hb Ho. apply get_throws. unfold Hub.getRequestUrl, Hub.getOrigin. cbn.
  rewrite Hb. destruct Ho as [-> | ->]; reflexivity.
Qed.

(** X2.  A root-relative base needs the stored origin: when nothing or
    the empty string is stored, [get] throws the TypeError of
    [new URL('')] to its caller, synchronously, and issues no request.
    [logout] is such a call. *)
Theorem get_root_relative_without_origin_throws (env : environment) (base : string)
        (queryMap : list (string * string)) (fetchOpts : options) :
  Hub.startsWith_slash base = true ->
  hubOrigin env = None \/ hubOrigin env = Some "" ->
  Hub.get env (VStr base) queryMap fetchOpts = ([], Throw (TypeError InvalidURL)).
Proof.
  intros Hb Ho. now apply get_root_relative_origin_missing.
Qed.

Lemma get_root_relative_without_origin_throws_run :
  Hub.logout Doubles.unconfigured = ([], Throw (TypeError InvalidURL)).
Proof.
  apply (get_root_relative_without_origin_throws Doubles.unconfigured
           "/j_spring_security_logout" [] no_options).
  - reflexivity.
  - left. reflexivity.
Defined.

(** ** Session *)

(** X3.  With an origin that parses, [isConnected] issues the one GET for
    /api/v1/currentuser on it and never rejects: it answers true exactly
    when the response has a success status and a truthy body, and false
    when the platform's fetch rejects, the status is a failure, or the body
    is falsy or does not decode. *)
Theorem isConnected_by_answer (env : environment) (origin : string) (url0 : Url.t) :
  hubOrigin env = Some origin -> origin <> "" ->
  Url.new origin = Normal url0 ->
  Hub.isConnected env
  = ([Fetched (Url.href (Url.set_pathname url0 "/api/v1/currentuser")) get_options],
     Normal (Fulfilled
               match network env (Url.href (Url.set_pathname url0 "/api/v1/currentuser"))
                             get_options with
               | Some r => ok r && truthy (match json r with Some v => v | None => VNull end)
               | None => false
               end)).
Proof.
  intros H Hne Hu. unfold Hub.isConnected, Hub.getCurrentUser.
  assert (E : Hub.getRequestUrl env (VStr "/api/v1/currentuser") []
              = Normal (Url.set_pathname url0 "/api/v1/currentuser")).
  { unfold Hub.getRequestUrl. rewrite (getOrigin_stored env origin H). cbn.
    rewrite Hu. reflexivity. }
  rewrite (get_run env _ _ no_options _ E), fetch_run.
  change (merge _ (merge _ no_options)) with get_options. cbn.
  destruct (network env _ _) as [r|]; cbn; [|reflexivity].
  destruct (ok r); cbn; [reflexivity|].
  destruct (get_prop _ _); reflexivity.
Qed.

Lemma isConnected_by_answer_run :
  Hub.isConnected signed_in_server
  = ([Fetched "https://hub.example.com/api/v1/currentuser" get_options],
     Normal (Fulfilled true)).
Proof.
  apply (isConnected_by_answer signed_in_server "https://hub.example.com"
           (Url.mk "https" "hub.example.com" "/" None None)).
  - reflexivity.
  - discriminate.
  - reflexivity.
Defined.

(** X4.  Without a stored origin [isConnected] does not answer false:
    [getCurrentUser] is left by the exception of [get] before its
    [.catch(() => null)] applies, and the promise of [isConnected] rejects.
    No request is issued. *)
Theorem isConnected_without_origin_rejects (env : environment) :
  hubOrigin env = None \/ hubOrigin env = Some "" ->
  Hub.isConnected env = ([], Normal (Rejected (TypeError InvalidURL))).
Proof.
  intros Ho. unfold Hub.isConnected, Hub.getCurrentUser.
  rewrite (get_root_relative_origin_missing env "/api/v1/currentuser" [] no_options
             eq_refl Ho).
  reflexivity.
Qed.

Lemma isConnected_without_origin_rejects_run :
  Hub.isConnected Doubles.unconfigured = ([], Normal (Rejected (TypeError InvalidURL))).
Proof.
  apply (isConnected_without_origin_rejects Doubles.unconfigured). left. reflexivity.
Defined.

(** ** Relations that fail softly *)

(** X5.  A promise returned by [getRelation] is never rejected: whatever
    the transport does once the request is out, the caller awaits a value.
    [getComponentRiskProfile] is [getRelation] on risk-profile. *)
Theorem getRelation_never_rejects (env : environment) (model : value)
        (relationship : string) (evs : list event) (p : settled value) :
  Hub.getRelation env model relationship = (evs, Normal p) ->
  exists v, p = Fulfilled v.
Proof.
  unfold Hub.getRelation.
  destruct (Hub.get env _ _ _) as [evs' [e|q]]; cbn; intros H; inversion H.
  destruct q; cbn; eauto.
Qed.

Lemma getRelation_never_rejects_run :
  exists v : value, @Fulfilled value VNull = Fulfilled v.
Proof.
  apply (getRelation_never_rejects failing_server risky_component "risk-profile"
           [Fetched "https://hub.example.com/api/components/1/versions/2/risk-profile?limit=10000"
                    get_options]
           (Fulfilled VNull)).
  reflexivity.
Defined.

(** The answers on which a list relation comes out empty: the platform's
    fetch rejected, the status is a failure, or the body is null, decoded
    or not. *)
Lemma getListRelation_soft (env : environment) (model : value) (relationship link : string)
      (rest : list string) (url : Url.t) :
  linksFor env model relationship = Some (link :: rest) ->
  Hub.getRequestUrl env (VStr link) [("limit", "10000")] = Normal url ->
  (network env (Url.href url) get_options = None
   \/ exists r, network env (Url.href url) get_options = Some r
                /\ (ok r = false \/ json r = None \/ json r = Some VNull)) ->
  Hub.getListRelation env model relationship
  = ([Fetched (Url.href url) get_options], Normal (Fulfilled (VArr [] []))).
Proof.
  intros Hl Hu Hsoft. unfold Hub.getListRelation.
  rewrite (getRelation_run env model relationship link rest url Hl Hu).
  destruct Hsoft as [E | (r & E & Hr)]; rewrite E; cbn; [reflexivity|].
  destruct (ok r); [|reflexivity].
  destruct Hr as [Hr | [-> | ->]]; [discriminate|reflexivity|reflexivity].
Qed.

(** X6.  A list relation whose request fails is the empty sequence, not
    an error: when the link is present and the platform's fetch rejects, or
    the status is a failure, or the body is null or does not decode,
    [getListRelation] returns a promise fulfilled with an empty array.
    [getComponentPolicyViolations] and [getProjectVersionComponents] are
    [getListRelation] on policy-rules and components. *)
Theorem getListRelation_failed_request_is_empty (env : environment) (model : value)
        (relationship link : string) (rest : list string) (url : Url.t) :
  linksFor env model relationship = Some (link :: rest) ->
  Hub.getRequestUrl env (VStr link) [("limit", "10000")] = Normal url ->
  (network env (Url.href url) get_options = None
   \/ exists r, network env (Url.href url) get_options = Some r
                /\ (ok r = false \/ json r = None \/ json r = Some VNull)) ->
  Hub.getListRelation env model relationship
  = ([Fetched (Url.href url) get_options], Normal (Fulfilled (VArr [] []))).
Proof.
  apply getListRelation_soft.
Qed.

Lemma getListRelation_failed_request_is_empty_run :
  Hub.getComponentPolicyViolations
    (Doubles.hub_at "https://hub.example.com" [])
    (VObj [("policy-rules", VStr "https://hub.example.com/api/bom/7/policy-rules")])
  = ([Fetched "https://hub.example.com/api/bom/7/policy-rules?limit=10000" get_options],
     Normal (Fulfilled (VArr [] []))).
Proof.
  apply (getListRelation_failed_request_is_empty
           (Doubles.hub_at "https://hub.example.com" [])
           (VObj [("policy-rules", VStr "https://hub.example.com/api/bom/7/policy-rules")])
           "policy-rules" "https://hub.example.com/api/bom/7/policy-rules" []
           (Url.mk "https" "hub.example.com" "/api/bom/7/policy-rules"
                   (Some "limit=10000") None)).
  - reflexivity.
  - reflexivity.
  - left. reflexivity.
Defined.

(** ** Vulnerabilities *)

(** X7.  When the request for the vulnerabilities fails softly,
    [getComponentVulnerabilities] returns the empty sequence. *)
Theorem getComponentVulnerabilities_failed_request_is_empty (env : environment)
        (componentVersion : value) (link : string) (rest : list string) (url : Url.t) :
  linksFor env componentVersion "vulnerabilities" = Some (link :: rest) ->
  Hub.getRequestUrl env (VStr link) [("limit", "10000")] = Normal url ->
  (network env (Url.href url) get_options = None
   \/ exists r, network env (Url.href url) get_options = Some r
                /\ (ok r = false \/ json r = None \/ json r = Some VNull)) ->
  Hub.getComponentVulnerabilities env componentVersion
  = ([Fetched (Url.href url) get_options], Normal (Fulfilled (VArr [] []))).
Proof.
  intros Hl Hu Hsoft. unfold Hub.getComponentVulnerabilities.
  rewrite (getListRelation_soft env _ _ link rest url Hl Hu Hsoft). reflexivity.
Qed.

Lemma getComponentVulnerabilities_failed_request_is_empty_run :
  Hub.getComponentVulnerabilities (Doubles.hub_at "https://hub.example.com" [])
                                  vulnerable_component
  = ([Fetched
        "https://hub.example.com/api/components/1/versions/2/vulnerabilities?limit=10000"
        get_options],
     Normal (Fulfilled (VArr [] []))).
Proof.
  apply (getComponentVulnerabilities_failed_request_is_empty
           (Doubles.hub_at "https://hub.example.com" []) vulnerable_component
           "https://hub.example.com/api/components/1/versions/2/vulnerabilities" []
           (Url.mk "https" "hub.example.com" "/api/components/1/versions/2/vulnerabilities"
                   (Some "limit=10000") None)).
  - reflexivity.
  - reflexivity.
  - left. reflexivity.
Defined.

(** X8.  A response that succeeds with an object that has no [items]
    is not taken for an empty list: [getListRelation] hands [undefined] on,
    and [getComponentVulnerabilities] rejects with the TypeError of calling
    [map] on it. *)
Theorem getComponentVulnerabilities_without_items_rejects (env : environment)
        (componentVersion : value) (link : string) (rest : list string) (url : Url.t)
        (r : response) (own : list (string * value)) :
  linksFor env componentVersion "vulnerabilities" = Some (link :: rest) ->
  Hub.getRequestUrl env (VStr link) [("limit", "10000")] = Normal url ->
  network env (Url.href url) get_options = Some r ->
  ok r = true ->
  json r = Some (VObj own) ->
  lookup "items" own = None ->
  Hub.getListRelation env componentVersion "vulnerabilities"
  = ([Fetched (Url.href url) get_options], Normal (Fulfilled VUndef))
  /\ Hub.getComponentVulnerabilities env componentVersion
     = ([Fetched (Url.href url) get_options],
        Normal (Rejected (TypeError (CannotRead "map")))).
Proof.
  intros Hl Hu Hn Hok Hj Hitems.
  assert (E : Hub.getListRelation env componentVersion "vulnerabilities"
              = ([Fetched (Url.href url) get_options], Normal (Fulfilled VUndef))).
  { unfold Hub.getListRelation.
    rewrite (getRelation_run env _ _ link rest url Hl Hu), Hn. cbn.
    rewrite Hok, Hj. cbn. unfold own_get. rewrite Hitems. reflexivity. }
  split; [exact E|].
  unfold Hub.getComponentVulnerabilities. rewrite E. reflexivity.
Qed.

Lemma getComponentVulnerabilities_without_items_rejects_run :
  Hub.getListRelation itemless_server vulnerable_component "vulnerabilities"
  = ([Fetched
        "https://hub.example.com/api/components/1/versions/2/vulnerabilities?limit=10000"
        get_options],
     Normal (Fulfilled VUndef))
  /\ Hub.getComponentVulnerabilities itemless_server vulnerable_component
     = ([Fetched
           "https://hub.example.com/api/components/1/versions/2/vulnerabilities?limit=10000"
           get_options],
        Normal (Rejected (TypeError (CannotRead "map")))).
Proof.
  apply (getComponentVulnerabilities_without_items_rejects itemless_server
           vulnerable_component
           "https://hub.example.com/api/components/1/versions/2/vulnerabilities" []
           (Url.mk "https" "hub.example.com" "/api/components/1/versions/2/vulnerabilities"
                   (Some "limit=10000") None)
           (Doubles.replies (VObj [("totalCount", VNum 0)]))
           [("totalCount", VNum 0)]); reflexivity.
Defined.

Lemma own_get_own_set_other (k k' : string) (v : value) (own : list (string * value)) :
  k <> k' -> own_get (own_set k' v own) k = own_get own k.
Proof.
  intros Hne. unfold own_get.
  induction own as [|[k0 v0] rest IH]; cbn.
  - destruct (String.eqb_spec k' k); [congruence|reflexivity].
  - destruct (String.eqb_spec k0 k'); cbn.
    + subst k0. destruct (String.eqb_spec k' k); [congruence|reflexivity].
    + destruct (String.eqb_spec k0 k); [reflexivity|exact IH].
Qed.

(** X9.  [getComponentVulnerabilities] returns as many entries as it
    fetched, in their order, and touches nothing but [detailsUrl]: every
    other field of an entry reads after the call as it did before. *)
Theorem getComponentVulnerabilities_keeps_other_fields (env : environment)
        (componentVersion : value) (evs : list event) (vulnerabilities : list value) :
  Hub.getListRelation env componentVersion "vulnerabilities"
  = (evs, Normal (Fulfilled (VArr vulnerabilities []))) ->
  Forall named_entry vulnerabilities ->
  exists out,
    Hub.getComponentVulnerabilities env componentVersion
    = (evs, Normal (Fulfilled (VArr out [])))
    /\ length out = length vulnerabilities
    /\ Forall2 (fun v o => forall k, k <> "detailsUrl" -> get_prop o k = get_prop v k)
               vulnerabilities out.
Proof.
  intros H Hnamed. destruct (map_withDetailsUrl env vulnerabilities Hnamed) as (out & E & F).
  exists out. split; [|split].
  - unfold Hub.getComponentVulnerabilities. rewrite H. cbn. rewrite E. cbn.
    now rewrite app_nil_r.
  - symmetry. eapply Forall2_length. exact F.
  - eapply Forall2_impl; [|exact F].
    intros v o (own & d & -> & _ & -> & _) k Hk. cbn.
    now rewrite own_get_own_set_other.
Qed.

Lemma getComponentVulnerabilities_keeps_other_fields_run :
  exists out,
    Hub.getComponentVulnerabilities vulnerability_server vulnerable_component
    = ([Fetched
          "https://hub.example.com/api/components/1/versions/2/vulnerabilities?limit=10000"
          get_options],
       Normal (Fulfilled (VArr out [])))
    /\ length out = length three_vulnerabilities
    /\ Forall2 (fun v o => forall k, k <> "detailsUrl" -> get_prop o k = get_prop v k)
               three_vulnerabilities out.
Proof.
  apply (getComponentVulnerabilities_keeps_other_fields vulnerability_server
           vulnerable_component).
  - reflexivity.
  - repeat constructor; eexists; exists "CVE-2020-1"; split; reflexivity.
Defined.

Lemma map_withDetailsUrl_hole (env : environment) (before after : list value)
      (hole : value) :
  Forall named_entry before ->
  hole = VNull \/ hole = VUndef ->
  map_c (Hub.withDetailsUrl env) (before ++ hole :: after)
  = Throw (TypeError (CannotRead "source")).
Proof.
  intros Hb Hh. induction Hb as [|v vs Hv _ IH]; cbn.
  - destruct Hh as [-> | ->]; reflexivity.
  - destruct (withDetailsUrl_by_rule env v Hv) as (o & Eo & _).
    rewrite Eo. cbn. rewrite IH. reflexivity.
Qed.

(** X10.  One null (or undefined) entry among the fetched vulnerabilities
    makes the whole call reject, with the TypeError of reading [source] off
    it: the entries before it are not returned. *)
Theorem getComponentVulnerabilities_null_entry_rejects (env : environment)
        (componentVersion : value) (evs : list event) (before after : list value)
        (hole : value) :
  Hub.getListRelation env componentVersion "vulnerabilities"
  = (evs, Normal (Fulfilled (VArr (before ++ hole :: after) []))) ->
  Forall named_entry before ->
  hole = VNull \/ hole = VUndef ->
  Hub.getComponentVulnerabilities env componentVersion
  = (evs, Normal (Rejected (TypeError (CannotRead "source")))).
Proof.
  intros H Hb Hh. unfold Hub.getComponentVulnerabilities. rewrite H. cbn.
  rewrite (map_withDetailsUrl_hole env before after hole Hb Hh). cbn.
  now rewrite app_nil_r.
Qed.

Lemma getComponentVulnerabilities_null_entry_rejects_run :
  Hub.getComponentVulnerabilities holed_server vulnerable_component
  = ([Fetched
        "https://hub.example.com/api/components/1/versions/2/vulnerabilities?limit=10000"
        get_options],
     Normal (Rejected (TypeError (CannotRead "source")))).
Proof.
  apply (getComponentVulnerabilities_null_entry_rejects holed_server vulnerable_component
           [Fetched
              "https://hub.example.com/api/components/1/versions/2/vulnerabilities?limit=10000"
              get_options]
           [VObj [("source", VStr "NVD"); ("vulnerabilityName", VStr "CVE-2020-1")]]
           [VObj [("source", VStr "OTHER"); ("vulnerabilityName", VStr "CVE-2020-2")]]
           VNull).
  - reflexivity.
  - repeat constructor. eexists. exists "CVE-2020-1". split; reflexivity.
  - left. reflexivity.
Defined.

(** ** Component search and component versions *)

Lemma root_relative_url (env : environment) (origin base : string) (url0 : Url.t)
      (queryMap : list (string * string)) :
  hubOrigin env = Some origin ->
  Url.new origin = Normal url0 ->
  Hub.startsWith_slash base = true ->
  Hub.getRequestUrl env (VStr base) queryMap
  = Normal (fold_left (fun u kv => Url.append u (fst kv) (snd kv)) queryMap
                      (Url.set_pathname url0 base)).
Proof.
  intros H Hu Hb. unfold Hub.getRequestUrl. cbn. rewrite Hb.
  assert (E : Hub.getOrigin env = origin \/ origin = "").
  { unfold Hub.getOrigin. rewrite H. destruct (String.eqb_spec origin ""); auto. }
  destruct E as [-> | ->]; [|discriminate Hu].
  rewrite Hu. reflexivity.
Qed.

Lemma truthy_get_prop (v : value) (k : string) :
  truthy v = true ->
  get_prop v k
  = Normal match v with
           | VArr _ own | VObj own | VBox _ own => own_get own k
           | _ => VUndef
           end.
Proof.
  destruct v; cbn; try discriminate; reflexivity.
Qed.

(** One statement of a method body whose right-hand side evaluates
    without throwing. *)
Ltac step H :=
  rewrite H;
  match goal with
  | |- context [lift (Normal ?x)] => change (lift (Normal x)) with (ret x)
  end;
  rewrite bind_ret_l.

(** Closes a case on the answer of the server that the hypotheses of the
    case contradict or pin down. *)
Ltac same_answer :=
  intros;
  repeat match goal with
         | H : Some _ = None |- _ => discriminate H
         | H : None = Some _ |- _ => discriminate H
         | H : Some _ = Some _ |- _ => inversion H; subst; clear H
         | H1 : json ?r = _, H2 : json ?r = _ |- _ => rewrite H1 in H2
         | H1 : ok ?r = _, H2 : ok ?r = _ |- _ => rewrite H1 in H2
         | H : json ?r = _ |- context [json ?r] => rewrite H
         end;
  try discriminate; try reflexivity.

(** X11.  [getExternalComponents] searches /api/components on the origin
    with the one parameter q, the form encoding of forgeName, a colon and
    hubExternalId as the template literal prints them (an omitted argument
    prints as undefined:undefined).  Its promise is never rejected once
    the request is out: a failed request gives the empty sequence, a
    response object gives its [items]. *)
Theorem getExternalComponents_searches (env : environment) (keys forgeName id : value)
        (origin forge external : string) (url0 : Url.t) :
  hubOrigin env = Some origin ->
  Url.new origin = Normal url0 ->
  get_prop (default_empty keys) "forgeName" = Normal forgeName ->
  get_prop (default_empty keys) "hubExternalId" = Normal id ->
  to_string forgeName = Normal forge ->
  to_string id = Normal external ->
  exists out,
    Hub.getExternalComponents env keys
    = ([Fetched (Url.href (Url.append (Url.set_pathname url0 "/api/components")
                                      "q" (forge ++ ":" ++ external)))
                get_options],
       Normal (Fulfilled out))
    /\ (network env (Url.href (Url.append (Url.set_pathname url0 "/api/components")
                                          "q" (forge ++ ":" ++ external)))
                get_options = None -> out = VArr [] [])
    /\ (forall r,
          network env (Url.href (Url.append (Url.set_pathname url0 "/api/components")
                                            "q" (forge ++ ":" ++ external)))
                  get_options = Some r ->
          ok r = false -> out = VArr [] [])
    /\ (forall r own,
          network env (Url.href (Url.append (Url.set_pathname url0 "/api/components")
                                            "q" (forge ++ ":" ++ external)))
                  get_options = Some r ->
          ok r = true -> json r = Some (VObj own) -> out = own_get own "items").
Proof.
  intros H Hu Hf Hi Hfs His. unfold Hub.getExternalComponents.
  step Hf. step Hi. step Hfs. step His.
  rewrite (get_run env _ _ no_options _
             (root_relative_url env origin "/api/components" url0
                                [("q", forge ++ ":" ++ external)] H Hu eq_refl)).
  rewrite fetch_run. change (merge _ (merge _ no_options)) with get_options.
  cbn [fold_left fst snd].
  set (target := Url.href _). clearbody target.
  destruct (network env target get_options) as [r|] eqn:N; cbn.
  - destruct (ok r) eqn:Hok; cbn.
    + destruct (json r) as [v|] eqn:J; cbn.
      * destruct (truthy v) eqn:T; cbn.
        -- rewrite (truthy_get_prop v "items" T). cbn.
           eexists; split; [reflexivity|]. repeat split; same_answer.
        -- eexists; split; [reflexivity|]. repeat split; same_answer.
      * eexists; split; [reflexivity|]. repeat split; same_answer.
    + destruct (json r) as [v|]; [destruct (get_prop v "errorMessage")|]; cbn;
        eexists; (split; [reflexivity|]); repeat split; same_answer.
  - eexists; split; [reflexivity|]. repeat split; same_answer.
Qed.

Lemma getExternalComponents_searches_run :
  Hub.getExternalComponents (Doubles.hub_at "https://hub.example.com" []) VUndef
  = ([Fetched "https://hub.example.com/api/components?q=undefined%3Aundefined"
              get_options],
     Normal (Fulfilled (VArr [] []))).
Proof.
  destruct (getExternalComponents_searches (Doubles.hub_at "https://hub.example.com" [])
              VUndef VUndef VUndef "https://hub.example.com" "undefined" "undefined"
              (Url.mk "https" "hub.example.com" "/" None None)
              eq_refl eq_refl eq_refl eq_refl eq_refl eq_refl)
    as (out & E & Hnone & _).
  rewrite E, (Hnone eq_refl). reflexivity.
Defined.

(** X12.  [getComponentVersion] on a component without a [version] (or
    called without an argument) throws the TypeError of
    [baseUrl.startsWith] to its caller and issues no request. *)
Theorem getComponentVersion_without_version_throws (env : environment)
        (component version : value) :
  get_prop (default_empty component) "version" = Normal version ->
  version = VUndef \/ version = VNull ->
  Hub.getComponentVersion env component
  = ([], Throw (TypeError (CannotRead "startsWith"))).
Proof.
  intros H Hv. unfold Hub.getComponentVersion. rewrite H.
  destruct Hv as [-> | ->]; reflexivity.
Qed.

Lemma getComponentVersion_without_version_throws_run :
  Hub.getComponentVersion (Doubles.hub_at "https://hub.example.com" []) VUndef
  = ([], Throw (TypeError (CannotRead "startsWith"))).
Proof.
  apply (getComponentVersion_without_version_throws
           (Doubles.hub_at "https://hub.example.com" []) VUndef VUndef).
  - reflexivity.
  - left. reflexivity.
Defined.

(** X13.  [getComponentVersion] requests the version URL of the component
    as it stands, with no query added, and hides no failure: a rejected
    fetch rejects its promise, a failure status rejects it with the
    [errorMessage] of the server, a success fulfils it with the body. *)
Theorem getComponentVersion_passes_failure_on (env : environment) (component : value)
        (link : string) (url : Url.t) :
  get_prop (default_empty component) "version" = Normal (VStr link) ->
  Hub.getRequestUrl env (VStr link) [] = Normal url ->
  exists out,
    Hub.getComponentVersion env component
    = ([Fetched (Url.href url) get_options], Normal out)
    /\ (network env (Url.href url) get_options = None -> out = Rejected NetworkError)
    /\ (forall r own, network env (Url.href url) get_options = Some r ->
          ok r = false -> json r = Some (VObj own) ->
          out = Rejected (Error (own_get own "errorMessage")))
    /\ (forall r v, network env (Url.href url) get_options = Some r ->
          ok r = true -> json r = Some v -> out = Fulfilled v).
Proof.
  intros H Hu. unfold Hub.getComponentVersion. rewrite H.
  change (lift (Normal (VStr link))) with (ret (VStr link)). rewrite bind_ret_l.
  rewrite (get_run env _ _ no_options _ Hu), fetch_run.
  change (merge _ (merge _ no_options)) with get_options.
  eexists. split; [reflexivity|].
  destruct (network env _ _) as [r|]; repeat split; try discriminate.
  - intros r' own R Hok J. inversion R; subst r'. cbn. rewrite Hok, J. reflexivity.
  - intros r' v R Hok J. inversion R; subst r'. cbn. rewrite Hok, J. reflexivity.
Qed.

Lemma getComponentVersion_passes_failure_on_run :
  Hub.getComponentVersion component_server
    (VObj [("version", VStr "https://hub.example.com/api/components/1/versions/2")])
  = ([Fetched "https://hub.example.com/api/components/1/versions/2" get_options],
     Normal (Rejected (Error (VStr "Forbidden")))).
Proof.
  destruct (getComponentVersion_passes_failure_on component_server
              (VObj [("version", VStr "https://hub.example.com/api/components/1/versions/2")])
              "https://hub.example.com/api/components/1/versions/2"
              (Url.mk "https" "hub.example.com" "/api/components/1/versions/2" None None)
              eq_refl eq_refl)
    as (out & E & _ & Hfail & _).
  rewrite E.
  rewrite (Hfail (Doubles.fails_with (VObj [("errorMessage", VStr "Forbidden")]))
                 [("errorMessage", VStr "Forbidden")] eq_refl eq_refl eq_refl).
  reflexivity.
Defined.

(** ** Matching BOM components, beyond string versions *)

Lemma filter_matchesVersion_strict (version : value) (bom : list value) :
  Forall is_object bom ->
  filter_c (Hub.matchesVersion version) bom
  = Normal (filter (has_same_version version) bom).
Proof.
  induction 1 as [|c bom [own ->] _ IH]; cbn; [reflexivity|].
  rewrite IH. reflexivity.
Qed.

Lemma matching_branch (env : environment) (version projectVersion : value)
      (evs : list event) (bom : list value) :
  Hub.getProjectVersionComponents env projectVersion
  = (evs, Normal (Fulfilled (VArr bom []))) ->
  Forall is_object bom ->
  async (p <- Hub.getProjectVersionComponents env projectVersion ;;
         bomComponents <- await p ;;
         elems <- lift (array_elems "filter" bomComponents) ;;
         kept <- lift (filter_c (Hub.matchesVersion version) elems) ;;
         ret (VArr kept []))
  = (evs, Normal (Fulfilled (VArr (filter (has_same_version version) bom) []))).
Proof.
  intros H Hobj. rewrite H. cbn.
  rewrite (filter_matchesVersion_strict version bom Hobj). cbn.
  now rewrite !app_nil_r.
Qed.

Lemma matching_fan_out_strict (env : environment) (version : value)
      (projectVersions : list value) (fetched : list (list event * list value)) :
  Forall2 (fun projectVersion eb =>
             Hub.getProjectVersionComponents env projectVersion
             = (fst eb, Normal (Fulfilled (VArr (snd eb) [])))) projectVersions fetched ->
  Forall (fun eb => Forall is_object (snd eb)) fetched ->
  map_p (fun projectVersion =>
           async (p <- Hub.getProjectVersionComponents env projectVersion ;;
                  bomComponents <- await p ;;
                  elems <- lift (array_elems "filter" bomComponents) ;;
                  kept <- lift (filter_c (Hub.matchesVersion version) elems) ;;
                  ret (VArr kept []))) projectVersions
  = (concat (map fst fetched),
     Normal (map Fulfilled
               (map (fun eb => VArr (filter (has_same_version version) (snd eb)) [])
                    fetched))).
Proof.
  induction 1 as [|pv [evs bom] pvs rest Hpv _ IH]; intros Hobj; cbn [map_p].
  - reflexivity.
  - inversion Hobj as [|? ? Hbom Hrest]; subst.
    rewrite (IH Hrest), (matching_branch env version pv evs bom Hpv Hbom). cbn.
    now rewrite !app_nil_r.
Qed.

Lemma concat_apply_filtered (keep : value -> bool) (fetched : list (list event * list value)) :
  concat_apply (map (fun eb => VArr (filter keep (snd eb)) []) fetched)
  = VArr (concat (map (fun eb => filter keep (snd eb)) fetched)) [].
Proof.
  unfold concat_apply. f_equal.
  induction fetched as [|eb fetched IH]; cbn; [reflexivity|now rewrite IH].
Qed.

(** X14.  The match of [getMatchingBOMComponents] is strict equality on
    whatever the two fields hold, so it also decides for a component whose
    [version] is no string: a component without [version] gets exactly
    the BOM entries without [componentVersion], in the order of the project
    versions. *)
Theorem getMatchingBOMComponents_strict_equality (env : environment)
        (component version : value) (projectVersions : list value)
        (fetched : list (list event * list value)) :
  get_prop component "version" = Normal version ->
  Forall2 (fun projectVersion eb =>
             Hub.getProjectVersionComponents env projectVersion
             = (fst eb, Normal (Fulfilled (VArr (snd eb) [])))) projectVersions fetched ->
  Forall (fun eb => Forall is_object (snd eb)) fetched ->
  Hub.getMatchingBOMComponents env component projectVersions
  = (concat (map fst fetched),
     Normal (Fulfilled
               (VArr (concat (map (fun eb => filter (has_same_version version) (snd eb))
                                  fetched)) []))).
Proof.
  intros Hv Hf Hobj. unfold Hub.getMatchingBOMComponents. step Hv.
  rewrite (matching_fan_out_strict env version projectVersions fetched Hf Hobj).
  cbn. rewrite promise_all_fulfilled. cbn. rewrite concat_apply_filtered.
  now rewrite app_nil_r.
Qed.

Lemma getMatchingBOMComponents_strict_equality_run :
  Hub.getMatchingBOMComponents unversioned_server (VObj []) [pv1]
  = ([Fetched "https://hub.example.com/api/pv/1/components?limit=10000" get_options],
     Normal (Fulfilled (VArr [VObj [("componentName", VStr "no version here")]] []))).
Proof.
  apply (getMatchingBOMComponents_strict_equality unversioned_server (VObj []) VUndef [pv1]
           [([Fetched "https://hub.example.com/api/pv/1/components?limit=10000" get_options],
             unversioned_bom)]).
  - reflexivity.
  - repeat constructor.
  - repeat constructor; eexists; reflexivity.
Defined.

Lemma promise_all_rejected {A} (before : list A) (e : error) (after : list (settled A)) :
  promise_all (map Fulfilled before ++ Rejected e :: after) = Rejected e.
Proof.
  induction before as [|a before IH]; cbn; [reflexivity|now rewrite IH].
Qed.

Lemma matching_fan_out_linkless (env : environment) (version projectVersion : value)
      (before after : list value) (fb fa : list (list event * list value)) :
  Forall2 (fun projectVersion eb =>
             Hub.getProjectVersionComponents env projectVersion
             = (fst eb, Normal (Fulfilled (VArr (snd eb) [])))) before fb ->
  Forall (fun eb => Forall is_object (snd eb)) fb ->
  linksFor env projectVersion "components" = None ->
  Forall2 (fun projectVersion eb =>
             Hub.getProjectVersionComponents env projectVersion
             = (fst eb, Normal (Fulfilled (VArr (snd eb) [])))) after fa ->
  Forall (fun eb => Forall is_object (snd eb)) fa ->
  map_p (fun projectVersion =>
           async (p <- Hub.getProjectVersionComponents env projectVersion ;;
                  bomComponents <- await p ;;
                  elems <- lift (array_elems "filter" bomComponents) ;;
                  kept <- lift (filter_c (Hub.matchesVersion version) elems) ;;
                  ret (VArr kept []))) (before ++ projectVersion :: after)
  = ((concat (map fst fb) ++ concat (map fst fa))%list,
     Normal (map Fulfilled
               (map (fun eb => VArr (filter (has_same_version version) (snd eb)) []) fb)
             ++ Rejected (TypeError (CannotRead "startsWith"))
             :: map Fulfilled
                  (map (fun eb => VArr (filter (has_same_version version) (snd eb)) [])
                       fa))%list).
Proof.
  intros Hb Hbo Hl Ha Hao.
  induction Hb as [|pv [evs bom] pvs rest Hpv _ IH]; cbn [map_p app].
  - rewrite (matching_fan_out_strict env version after fa Ha Hao).
    unfold Hub.getProjectVersionComponents.
    rewrite (getListRelation_absent_relation_rejects env projectVersion "components" Hl).
    cbn. now rewrite app_nil_r.
  - inversion Hbo as [|? ? Hbom Hrest]; subst.
    rewrite (IH Hrest), (matching_branch env version pv evs bom Hpv Hbom). cbn.
    now rewrite !app_nil_r, app_assoc.
Qed.

(** X15.  One project version without a components link rejects the whole
    of [getMatchingBOMComponents], with the TypeError its [getListRelation]
    ran into, even when every other BOM was fetched; the requests for the
    other project versions, those after it included, have all been
    issued. *)
Theorem getMatchingBOMComponents_linkless_version_rejects (env : environment)
        (component version projectVersion : value) (before after : list value)
        (fb fa : list (list event * list value)) :
  get_prop component "version" = Normal version ->
  Forall2 (fun projectVersion eb =>
             Hub.getProjectVersionComponents env projectVersion
             = (fst eb, Normal (Fulfilled (VArr (snd eb) [])))) before fb ->
  Forall (fun eb => Forall is_object (snd eb)) fb ->
  linksFor env projectVersion "components" = None ->
  Forall2 (fun projectVersion eb =>
             Hub.getProjectVersionComponents env projectVersion
             = (fst eb, Normal (Fulfilled (VArr (snd eb) [])))) after fa ->
  Forall (fun eb => Forall is_object (snd eb)) fa ->
  Hub.getMatchingBOMComponents env component (before ++ projectVersion :: after)
  = ((concat (map fst fb) ++ concat (map fst fa))%list,
     Normal (Rejected (TypeError (CannotRead "startsWith")))).
Proof.
  intros Hv Hb Hbo Hl Ha Hao. unfold Hub.getMatchingBOMComponents. step Hv.
  rewrite (matching_fan_out_linkless env version projectVersion before after fb fa
             Hb Hbo Hl Ha Hao).
  cbn. rewrite promise_all_rejected. cbn. now rewrite app_nil_r.
Qed.

Lemma getMatchingBOMComponents_linkless_version_rejects_run :
  Hub.getMatchingBOMComponents bom_server (VObj [("version", VStr "V1")])
                               ([pv1] ++ linkless_version :: [pv2])
  = ([Fetched "https://hub.example.com/api/pv/1/components?limit=10000" get_options;
      Fetched "https://hub.example.com/api/pv/2/components?limit=10000" get_options],
     Normal (Rejected (TypeError (CannotRead "startsWith")))).
Proof.
  apply (getMatchingBOMComponents_linkless_version_rejects bom_server
           (VObj [("version", VStr "V1")]) (VStr "V1") linkless_version [pv1] [pv2]
           [([Fetched "https://hub.example.com/api/pv/1/components?limit=10000" get_options],
             bom1)]
           [([Fetched "https://hub.example.com/api/pv/2/components?limit=10000" get_options],
             bom2)]).
  - reflexivity.
  - repeat constructor.
  - repeat constructor; eexists; reflexivity.
  - reflexivity.
  - repeat constructor.
  - repeat constructor; eexists; reflexivity.
Defined.

(** ** Reference projects, entry by entry *)

(** X16.  When the request for the references fails softly,
    [getComponentVersionReferenceProjects] returns the empty sequence and
    asks for no project version. *)
Theorem getComponentVersionReferenceProjects_failed_references (env : environment)
        (componentVersion : value) (link : string) (rest : list string) (url : Url.t) :
  linksFor env componentVersion "references" = Some (link :: rest) ->
  Hub.getRequestUrl env (VStr link) [("limit", "10000")] = Normal url ->
  (network env (Url.href url) get_options = None
   \/ exists r, network env (Url.href url) get_options = Some r
                /\ (ok r = false \/ json r = None \/ json r = Some VNull)) ->
  Hub.getComponentVersionReferenceProjects env componentVersion
  = ([Fetched (Url.href url) get_options], Normal (Fulfilled (VArr [] []))).
Proof.
  intros Hl Hu Hsoft.
  unfold Hub.getComponentVersionReferenceProjects, Hub.getComponentVersionReferences.
  rewrite (getListRelation_soft env _ _ link rest url Hl Hu Hsoft). reflexivity.
Qed.

Lemma getComponentVersionReferenceProjects_failed_references_run :
  Hub.getComponentVersionReferenceProjects (Doubles.hub_at "https://hub.example.com" [])
                                           referenced_version
  = ([Fetched "https://hub.example.com/api/components/1/versions/2/references?limit=10000"
              get_options],
     Normal (Fulfilled (VArr [] []))).
Proof.
  apply (getComponentVersionReferenceProjects_failed_references
           (Doubles.hub_at "https://hub.example.com" []) referenced_version
           "https://hub.example.com/api/components/1/versions/2/references" []
           (Url.mk "https" "hub.example.com" "/api/components/1/versions/2/references"
                   (Some "limit=10000") None)).
  - reflexivity.
  - reflexivity.
  - left. reflexivity.
Defined.

Lemma getReferenceProjectVersion_run (env : environment) (own : list (string * value))
      (link : string) (url : Url.t) (r : response) :
  own_get own "projectVersionUrl" = VStr link ->
  Hub.getRequestUrl env (VStr link) [] = Normal url ->
  network env (Url.href url) get_options = Some r ->
  ok r = true ->
  Hub.getReferenceProjectVersion env (VObj own)
  = async (let projectVersion := match json r with Some v => v | None => VNull end in
           ([Fetched (Url.href url) get_options],
            if truthy projectVersion
            then set_prop projectVersion "projectName" (own_get own "projectName")
            else Normal projectVersion)).
Proof.
  intros Hlink Hu Hn Hok. unfold Hub.getReferenceProjectVersion. cbn [default_empty get_prop].
  change (lift (Normal (own_get own "projectName")))
    with (ret (own_get own "projectName")).
  rewrite bind_ret_l, Hlink.
  change (lift (Normal (VStr link))) with (ret (VStr link)).
  rewrite bind_ret_l.
  rewrite (get_run env _ _ no_options _ Hu), fetch_run.
  change (merge _ (merge _ no_options)) with get_options.
  rewrite Hn. cbn. rewrite Hok. cbn.
  destruct (truthy _); cbn; [destruct (set_prop _ _ _)|]; reflexivity.
Qed.

(** X17.  A project version that was fetched as an object comes back with
    [projectName] reading as the reference's [projectName], whatever the
    server had put there, and with every other field as the server sent
    it. *)
Theorem getReferenceProjectVersion_sets_projectName (env : environment)
        (own project : list (string * value)) (link : string) (url : Url.t)
        (r : response) :
  own_get own "projectVersionUrl" = VStr link ->
  Hub.getRequestUrl env (VStr link) [] = Normal url ->
  network env (Url.href url) get_options = Some r ->
  ok r = true ->
  json r = Some (VObj project) ->
  exists out,
    Hub.getReferenceProjectVersion env (VObj own)
    = ([Fetched (Url.href url) get_options], Normal (Fulfilled out))
    /\ get_prop out "projectName" = Normal (own_get own "projectName")
    /\ forall k, k <> "projectName" -> get_prop out k = get_prop (VObj project) k.
Proof.
  intros Hlink Hu Hn Hok Hj.
  rewrite (getReferenceProjectVersion_run env own link url r Hlink Hu Hn Hok), Hj.
  eexists. split; [reflexivity|]. cbn. split.
  - now rewrite own_get_own_set.
  - intros k Hk. now rewrite own_get_own_set_other.
Qed.

Lemma getReferenceProjectVersion_sets_projectName_run :
  exists out,
    Hub.getReferenceProjectVersion renamed_project_server (VObj project_reference)
    = ([Fetched "https://hub.example.com/api/projects/a/versions/1" get_options],
       Normal (Fulfilled out))
    /\ get_prop out "projectName" = Normal (VStr "alpha")
    /\ forall k, k <> "projectName" ->
                 get_prop out k
                 = get_prop (VObj [("projectName", VStr "stale");
                                   ("versionName", VStr "1.0")]) k.
Proof.
  apply (getReferenceProjectVersion_sets_projectName renamed_project_server
           project_reference
           [("projectName", VStr "stale"); ("versionName", VStr "1.0")]
           "https://hub.example.com/api/projects/a/versions/1"
           (Url.mk "https" "hub.example.com" "/api/projects/a/versions/1" None None)
           (Doubles.replies (VObj [("projectName", VStr "stale");
                                   ("versionName", VStr "1.0")])));
    reflexivity.
Defined.

(** X18.  A successful answer whose body is no object: a falsy body (null,
    a body that does not decode, false, 0, the empty string) is returned as
    it is, without a [projectName]; a truthy primitive (true, a non-zero
    number, a non-empty string) makes the promise reject with the TypeError
    of the assignment, which strict code raises on a primitive. *)
Theorem getReferenceProjectVersion_body_no_object (env : environment)
        (own : list (string * value)) (link : string) (url : Url.t) (r : response)
        (body : value) :
  own_get own "projectVersionUrl" = VStr link ->
  Hub.getRequestUrl env (VStr link) [] = Normal url ->
  network env (Url.href url) get_options = Some r ->
  ok r = true ->
  body = match json r with Some v => v | None => VNull end ->
  (truthy body = false ->
   Hub.getReferenceProjectVersion env (VObj own)
   = ([Fetched (Url.href url) get_options], Normal (Fulfilled body)))
  /\ (truthy body = true ->
      (exists b, body = VBool b) \/ (exists n, body = VNum n) \/ (exists s, body = VStr s) ->
      Hub.getReferenceProjectVersion env (VObj own)
      = ([Fetched (Url.href url) get_options],
         Normal (Rejected (TypeError (CannotCreateProperty "projectName"))))).
Proof.
  intros Hlink Hu Hn Hok ->.
  rewrite (getReferenceProjectVersion_run env own link url r Hlink Hu Hn Hok).
  cbn zeta. split.
  - intros ->. reflexivity.
  - intros -> [[b ->] | [[n ->] | [s ->]]]; reflexivity.
Qed.

Lemma getReferenceProjectVersion_body_no_object_run :
  Hub.getReferenceProjectVersion (scalar_project_server (VNum 0)) (VObj project_reference)
  = ([Fetched "https://hub.example.com/api/projects/a/versions/1" get_options],
     Normal (Fulfilled (VNum 0)))
  /\ Hub.getReferenceProjectVersion (scalar_project_server (VStr "moved"))
                                    (VObj project_reference)
     = ([Fetched "https://hub.example.com/api/projects/a/versions/1" get_options],
        Normal (Rejected (TypeError (CannotCreateProperty "projectName")))).
Proof.
  split.
  - apply (getReferenceProjectVersion_body_no_object (scalar_project_server (VNum 0))
             project_reference "https://hub.example.com/api/projects/a/versions/1"
             (Url.mk "https" "hub.example.com" "/api/projects/a/versions/1" None None)
             (Doubles.replies (VNum 0)) (VNum 0)); reflexivity.
  - apply (getReferenceProjectVersion_body_no_object (scalar_project_server (VStr "moved"))
             project_reference "https://hub.example.com/api/projects/a/versions/1"
             (Url.mk "https" "hub.example.com" "/api/projects/a/versions/1" None None)
             (Doubles.replies (VStr "moved")) (VStr "moved")); try reflexivity.
    right. right. exists "moved". reflexivity.
Defined.

(** ** Login, from the first event to the settled promise *)

(** X19.  [login] never throws to its caller, and whatever is stored and
    whoever answers, what leaves the process is nothing, or the permission
    request alone, or the permission request followed by the one POST with
    the login form: no request goes out before the permission was asked,
    and none after the POST. *)
Theorem login_asks_before_it_posts (env : environment) (username password : string) :
  exists out,
    snd (Hub.login env username password) = Normal out
    /\ (fst (Hub.login env username password) = []
        \/ (exists origin,
              fst (Hub.login env username password) = [PermissionAsked origin])
        \/ (exists origin url,
              fst (Hub.login env username password)
              = [PermissionAsked origin;
                 Fetched url (security_check_options username password)])).
Proof.
  destruct (hubOrigin env) as [origin|] eqn:H.
  - destruct (String.eqb_spec origin "") as [->|Hne].
    + unfold Hub.login, Hub.getOrigin. rewrite H. cbn.
      eexists. split; [reflexivity|]. now left.
    + destruct (permission env origin) as [e|] eqn:P.
      * rewrite (login_with_origin env username password origin H Hne).
        unfold Hub.requestUrl. rewrite P. cbn.
        eexists. split; [reflexivity|]. right. left. now exists origin.
      * destruct (Url.parse origin) as [url0|] eqn:U.
        -- assert (N : Url.new origin = Normal url0) by (unfold Url.new; now rewrite U).
           destruct (login_posts env username password origin url0 H Hne P N) as (out & E).
           rewrite E. cbn.
           eexists. split; [reflexivity|]. right. right. now do 2 eexists.
        -- rewrite (login_unparsable_origin env username password origin H Hne P U).
           cbn. eexists. split; [reflexivity|]. right. left. now exists origin.
  - unfold Hub.login, Hub.getOrigin. rewrite H. cbn.
    eexists. split; [reflexivity|]. now left.
Qed.

Lemma post_run (env : environment) (baseUrl : value) (queryMap : list (string * string))
      (fetchOpts : options) (url : Url.t) :
  Hub.getRequestUrl env baseUrl queryMap = Normal url ->
  Hub.post env baseUrl queryMap fetchOpts
  = Hub.fetch env url (merge (mkOptions (Some "POST") None None None) fetchOpts).
Proof.
  intros H. unfold Hub.post. rewrite H.
  change (lift (Normal url)) with (ret url). now rewrite bind_ret_l.
Qed.

(** X20.  Once the security check is posted, [login] settles as the
    transport does: fulfilled with the decoded body on a success status,
    rejected with the server's [errorMessage] on a failure status, rejected
    with the platform's error when the fetch itself rejects. *)
Theorem login_settles_as_the_security_check (env : environment)
        (username password origin : string) (url0 : Url.t) :
  hubOrigin env = Some origin -> origin <> "" ->
  permission env origin = None ->
  Url.new origin = Normal url0 ->
  exists out,
    Hub.login env username password
    = ([PermissionAsked origin;
        Fetched (Url.href (Url.set_pathname url0 "/j_spring_security_check"))
                (security_check_options username password)],
       Normal out)
    /\ (network env (Url.href (Url.set_pathname url0 "/j_spring_security_check"))
                (security_check_options username password) = None ->
        out = Rejected NetworkError)
    /\ (forall r v,
          network env (Url.href (Url.set_pathname url0 "/j_spring_security_check"))
                  (security_check_options username password) = Some r ->
          ok r = true -> json r = Some v -> out = Fulfilled v)
    /\ (forall r own,
          network env (Url.href (Url.set_pathname url0 "/j_spring_security_check"))
                  (security_check_options username password) = Some r ->
          ok r = false -> json r = Some (VObj own) ->
          out = Rejected (Error (own_get own "errorMessage"))).
Proof.
  intros H Hne Hp Hu. rewrite (login_with_origin env username password origin H Hne).
  unfold Hub.requestUrl. rewrite Hp.
  rewrite (post_run env _ _ (Hub.login_options username password) _
             (root_relative_url env origin "/j_spring_security_check" url0 [] H Hu eq_refl)).
  rewrite fetch_run. cbn [fold_left].
  change (merge _ (merge _ (Hub.login_options username password)))
    with (security_check_options username password).
  set (target := Url.href _). clearbody target.
  destruct (network env target _) as [r|] eqn:N; cbn.
  - destruct (ok r) eqn:Hok; cbn.
    + eexists; split; [reflexivity|]. repeat split; same_answer.
    + destruct (json r) as [v|] eqn:J; [destruct v|]; cbn;
        eexists; (split; [reflexivity|]); repeat split; same_answer.
  - eexists; split; [reflexivity|]. repeat split; same_answer.
Qed.

Lemma login_settles_as_the_security_check_run :
  Hub.login
    (security_check_server (Doubles.fails_with (VObj [("errorMessage", VStr "Bad credentials")])))
    "sysadmin" "wrong"
  = ([PermissionAsked "https://hub.example.com";
      Fetched "https://hub.example.com/j_spring_security_check"
              (security_check_options "sysadmin" "wrong")],
     Normal (Rejected (Error (VStr "Bad credentials")))).
Proof.
  destruct (login_settles_as_the_security_check
              (security_check_server
                 (Doubles.fails_with (VObj [("errorMessage", VStr "Bad credentials")])))
              "sysadmin" "wrong" "https://hub.example.com"
              (Url.mk "https" "hub.example.com" "/" None None)
              eq_refl ltac:(discriminate) eq_refl eq_refl)
    as (out & E & _ & _ & Hfail).
  rewrite E.
  rewrite (Hfail (Doubles.fails_with (VObj [("errorMessage", VStr "Bad credentials")]))
                 [("errorMessage", VStr "Bad credentials")] eq_refl eq_refl eq_refl).
  reflexivity.
Defined.

(** ** Request URLs on the origin *)

Lemma appended_keeps (queryMap : list (string * string)) : forall u : Url.t,
  let url := fold_left (fun u kv => Url.append u (fst kv) (snd kv)) queryMap u in
  Url.scheme url = Url.scheme u /\ Url.authority url = Url.authority u
  /\ Url.pathname url = Url.pathname u /\ Url.hash url = Url.hash u.
Proof.
  induction queryMap as [|kv rest IH]; intros u; cbn.
  - repeat split.
  - destruct (IH (Url.append u (fst kv) (snd kv))) as (A & B & C & D).
    cbn in *. rewrite A, B, C, D. repeat split.
Qed.

Lemma drop_nothing (s : string) :
  all_chars unremarkable s = true -> Url.drop Url.is_tab_or_newline s = s.
Proof.
  induction s as [|c s IH]; cbn; [reflexivity|].
  intros H. apply andb_true_iff in H. destruct H as [Hc Hs].
  unfold unremarkable in Hc. apply negb_true_iff, orb_false_iff in Hc.
  destruct Hc as [Hc _]. apply orb_false_iff in Hc.
  destruct Hc as [_ ->]. now rewrite (IH Hs).
Qed.

Lemma walk_plain (segs : list string) : forall path : list string,
  forallb no_dot_segment segs = true ->
  Url.walk path segs = (rev (map (Url.encode Url.path_byte) segs) ++ path)%list.
Proof.
  induction segs as [|seg segs IH]; intros path H; cbn [Url.walk].
  - reflexivity.
  - cbn in H. apply andb_true_iff in H. destruct H as [Hseg Hsegs].
    unfold no_dot_segment in Hseg. apply negb_true_iff, orb_false_iff in Hseg.
    destruct Hseg as [-> ->]. rewrite (IH _ Hsegs). cbn [map rev].
    now rewrite <- app_assoc.
Qed.

(** Cutting a path at its slashes, encoding the segments and joining
    them again is encoding the path. *)
Lemma encoded_segments (rest : string) :
  all_chars unremarkable rest = true ->
  (let (seg, more) := Url.segments rest in
   Url.encode Url.path_byte seg
   ++ Url.serialize_path (map (Url.encode Url.path_byte) more))%string
  = Url.encode Url.path_byte rest.
Proof.
  induction rest as [|c rest IH]; intros H; cbn [Url.segments].
  - reflexivity.
  - cbn in H. apply andb_true_iff in H. destruct H as [Hc Hrest].
    specialize (IH Hrest). destruct (Url.segments rest) as [seg more].
    unfold unremarkable in Hc. apply negb_true_iff, orb_false_iff in Hc.
    destruct Hc as [Hc _]. apply orb_false_iff in Hc.
    destruct Hc as [Hb _]. unfold Url.is_separator. rewrite Hb, orb_false_r.
    destruct (Ascii.eqb_spec c "/") as [->|Hne].
    + cbn. now rewrite IH.
    + cbn [Url.encode]. rewrite <- string_app_assoc. now rewrite IH.
Qed.

Lemma set_pathname_plain (u : Url.t) (base : string) :
  Hub.startsWith_slash base = true ->
  plain_base base = true ->
  Url.pathname (Url.set_pathname u base) = Url.encode Url.path_byte base.
Proof.
  intros Hb Hp. destruct base as [|c rest]; [discriminate Hb|].
  assert (c = "/"%char) as ->.
  { cbn in Hb. destruct (Ascii.eqb_spec c "/"); [assumption|].
    destruct c as [[] [] [] [] [] [] [] []]; try discriminate Hb; congruence. }
  unfold plain_base in Hp. apply andb_true_iff in Hp. destruct Hp as [Hchars Hsegs].
  unfold Url.set_pathname, Url.parse_path. cbn [Url.pathname].
  rewrite (drop_nothing _ Hchars).
  change (Url.is_separator "/") with true. cbn iota.
  cbn in Hchars. pose proof (encoded_segments rest Hchars) as E.
  destruct (Url.segments rest) as [seg more].
  rewrite (walk_plain (seg :: more) [] Hsegs), app_nil_r, rev_involutive.
  cbn [map Url.serialize_path Url.encode]. rewrite E. reflexivity.
Qed.

(** X21.  For a root-relative base, [getRequestUrl] keeps the scheme and
    the authority of the stored origin and appends the entries of the query
    map in the order of the map, each as key=value in form encoding, joined
    by ampersands.  When the base has no backslash, tab, newline or caret
    and no dot segment, the path of the result is the base,
    percent-encoded, in the place of the origin's path. *)
Theorem getRequestUrl_root_relative (env : environment) (origin base : string)
        (url0 : Url.t) (kv : string * string) (rest : list (string * string)) :
  hubOrigin env = Some origin ->
  Url.new origin = Normal url0 ->
  Url.search url0 = None ->
  Hub.startsWith_slash base = true ->
  exists url,
    Hub.getRequestUrl env (VStr base) (kv :: rest) = Normal url
    /\ Url.scheme url = Url.scheme url0
    /\ Url.authority url = Url.authority url0
    /\ (plain_base base = true -> Url.pathname url = Url.encode Url.path_byte base)
    /\ Url.search url = Some (String.concat "&" (map pair_string (kv :: rest))).
Proof.
  intros H Hu Hs Hb.
  rewrite (root_relative_url env origin base url0 (kv :: rest) H Hu Hb).
  eexists. split; [reflexivity|].
  destruct (appended_keeps (kv :: rest) (Url.set_pathname url0 base)) as (A & B & C & _).
  rewrite A, B, C. split; [reflexivity|]. split; [reflexivity|]. split.
  - intros Hp. now apply set_pathname_plain.
  - apply query_in_insertion_order. exact Hs.
Qed.

Lemma getRequestUrl_root_relative_run :
  exists url,
    Hub.getRequestUrl (Doubles.hub_at "https://hub.example.com" [])
                      (VStr "/api/components") [("q", "maven:a b"); ("limit", "10")]
    = Normal url
    /\ Url.scheme url = "https"
    /\ Url.authority url = "hub.example.com"
    /\ (plain_base "/api/components" = true -> Url.pathname url = "/api/components")
    /\ Url.search url = Some "q=maven%3Aa+b&limit=10".
Proof.
  apply (getRequestUrl_root_relative (Doubles.hub_at "https://hub.example.com" [])
           "https://hub.example.com" "/api/components"
           (Url.mk "https" "hub.example.com" "/" None None)
           ("q", "maven:a b") [("limit", "10")]); reflexivity.
Defined.

(** What the pathname setter does to the bases that are not plain: a
    backslash becomes a slash, and dot segments are resolved. *)
Example set_pathname_rewrites :
  map (fun base => Url.pathname (Url.set_pathname (Url.mk "https" "h" "/" None None) base))
      [String "/" (String "a" (String Url.backslash "b")); "/a/../b"; "/a/./b"; "/a/b/.."]
  = ["/a/b"; "/b"; "/a/b"; "/a/"].
Proof.
  reflexivity.
Qed.

(** ** Telemetry *)

Lemma registration_request (env : environment) (origin : string) (url0 : Url.t) :
  hubOrigin env = Some origin ->
  Url.new origin = Normal url0 ->
  Hub.getRegistrationId env
  = async (p <- Hub.fetch env (Url.set_pathname url0 "/api/v1/registrations")
                  (mkOptions (Some "GET") None None None) ;;
           await p).
Proof.
  intros H Hu. unfold Hub.getRegistrationId.
  now rewrite (get_run env _ _ no_options _
                 (root_relative_url env origin "/api/v1/registrations" url0 [] H Hu eq_refl)).
Qed.

Lemma version_request (env : environment) (origin : string) (url0 : Url.t) :
  hubOrigin env = Some origin ->
  Url.new origin = Normal url0 ->
  Hub.getHubVersion env
  = async (p <- Hub.fetch env (Url.set_pathname url0 "/api/v1/current-version")
                  (mkOptions (Some "GET") None None None) ;;
           await p).
Proof.
  intros H Hu. unfold Hub.getHubVersion.
  now rewrite (get_run env _ _ no_options _
                 (root_relative_url env origin "/api/v1/current-version" url0 [] H Hu
                                    eq_refl)).
Qed.

(** X22.  [phoneHome] asks for the registration first.  When that request
    fails, or its body is null or does not decode, the promise of
    [phoneHome] rejects with the registration request as the only thing that
    left the process: the version is not requested and nothing is handed to
    the phone-home client. *)
Theorem phoneHome_stops_at_failed_registration (env : environment)
        (build : Hub.phone_home_fields -> completion value)
        (send : value -> completion unit)
        (thirdPartyName thirdPartyVersion pluginVersion : value)
        (origin : string) (url0 : Url.t) :
  hubOrigin env = Some origin ->
  Url.new origin = Normal url0 ->
  (network env (Url.href (Url.set_pathname url0 "/api/v1/registrations")) get_options = None
   \/ exists r,
        network env (Url.href (Url.set_pathname url0 "/api/v1/registrations")) get_options
        = Some r
        /\ (ok r = false \/ json r = None \/ json r = Some VNull)) ->
  exists e,
    Hub.phoneHome env build send thirdPartyName thirdPartyVersion pluginVersion
    = ([Hub.Requested
          (Fetched (Url.href (Url.set_pathname url0 "/api/v1/registrations")) get_options)],
       Normal (Rejected e)).
Proof.
  intros H Hu Hfail. unfold Hub.phoneHome.
  rewrite (registration_request env origin url0 H Hu), fetch_run.
  change (merge _ (mkOptions (Some "GET") None None None)) with get_options.
  set (target := Url.href _) in *. clearbody target.
  destruct Hfail as [N | (r & N & Hr)]; rewrite N; cbn; [eauto|].
  destruct (ok r) eqn:Hok; cbn.
  - destruct Hr as [Hr | [-> | ->]]; [discriminate|cbn; eauto|cbn; eauto].
  - destruct (json r) as [v|]; [destruct (get_prop v "errorMessage")|]; cbn; eauto.
Qed.

Lemma phoneHome_stops_at_failed_registration_run :
  exists e,
    Hub.phoneHome (Doubles.hub_at "https://hub.example.com" [])
                  listing_builder accepting_client
                  (VStr "chrome") (VStr "61") (VStr "1.0.0")
    = ([Hub.Requested (Fetched "https://hub.example.com/api/v1/registrations" get_options)],
       Normal (Rejected e)).
Proof.
  apply (phoneHome_stops_at_failed_registration
           (Doubles.hub_at "https://hub.example.com" []) listing_builder accepting_client
           (VStr "chrome") (VStr "61") (VStr "1.0.0") "https://hub.example.com"
           (Url.mk "https" "hub.example.com" "/" None None)).
  - reflexivity.
  - reflexivity.
  - left. reflexivity.
Defined.

(** X23.  When both requests succeed, [phoneHome] has asked for the
    registration, then for the version, and then handed the client the body
    the builder made of: the [registrationId] of the first answer, the name
    Hub, the body of the second answer as the version, and its three
    arguments.  Its promise is fulfilled with undefined unless the client
    throws. *)
Theorem phoneHome_sends_after_both_answers (env : environment)
        (build : Hub.phone_home_fields -> completion value)
        (send : value -> completion unit)
        (thirdPartyName thirdPartyVersion pluginVersion : value)
        (origin : string) (url0 : Url.t) (r1 r2 : response)
        (registration : list (string * value)) (hubVersion phoneHomeRequestBody : value) :
  hubOrigin env = Some origin ->
  Url.new origin = Normal url0 ->
  network env (Url.href (Url.set_pathname url0 "/api/v1/registrations")) get_options
  = Some r1 ->
  ok r1 = true -> json r1 = Some (VObj registration) ->
  network env (Url.href (Url.set_pathname url0 "/api/v1/current-version")) get_options
  = Some r2 ->
  ok r2 = true -> json r2 = Some hubVersion ->
  build (Hub.mkPhoneHomeFields (own_get registration "registrationId") "Hub" hubVersion
                               pluginVersion thirdPartyName thirdPartyVersion)
  = Normal phoneHomeRequestBody ->
  Hub.phoneHome env build send thirdPartyName thirdPartyVersion pluginVersion
  = ([Hub.Requested
        (Fetched (Url.href (Url.set_pathname url0 "/api/v1/registrations")) get_options);
      Hub.Requested
        (Fetched (Url.href (Url.set_pathname url0 "/api/v1/current-version")) get_options);
      Hub.PhonedHome phoneHomeRequestBody],
     Normal match send phoneHomeRequestBody with
            | Throw e => Rejected e
            | Normal _ => Fulfilled VUndef
            end).
Proof.
  intros H Hu N1 Hok1 J1 N2 Hok2 J2 Hb. unfold Hub.phoneHome.
  rewrite (registration_request env origin url0 H Hu),
          (version_request env origin url0 H Hu), !fetch_run.
  change (merge _ (mkOptions (Some "GET") None None None)) with get_options.
  rewrite N1, N2. cbn. rewrite Hok1, Hok2, J1, J2. cbn. rewrite Hb. reflexivity.
Qed.

Lemma phoneHome_sends_after_both_answers_run :
  Hub.phoneHome telemetry_server listing_builder accepting_client
                (VStr "chrome") (VStr "61") (VStr "1.0.0")
  = ([Hub.Requested (Fetched "https://hub.example.com/api/v1/registrations" get_options);
      Hub.Requested (Fetched "https://hub.example.com/api/v1/current-version" get_options);
      Hub.PhonedHome (VObj [("regId", VStr "reg-42");
                            ("blackDuckName", VStr "Hub");
                            ("blackDuckVersion", VStr "4.8.0");
                            ("pluginVersion", VStr "1.0.0");
                            ("thirdPartyName", VStr "chrome");
                            ("thirdPartyVersion", VStr "61")])],
     Normal (Fulfilled VUndef)).
Proof.
  apply (phoneHome_sends_after_both_answers telemetry_server listing_builder
           accepting_client (VStr "chrome") (VStr "61") (VStr "1.0.0")
           "https://hub.example.com" (Url.mk "https" "hub.example.com" "/" None None)
           (Doubles.replies (VObj [("registrationId", VStr "reg-42")]))
           (Doubles.replies (VStr "4.8.0"))
           [("registrationId", VStr "reg-42")] (VStr "4.8.0")); reflexivity.
Defined.
